(** * http-swagger: the request dispatcher of [swagger.go]

    A shallow embedding of [Handler] (swagger.go, lines 143-203) and of the
    functions it calls, followed by the properties of the dispatcher.

    Strings are Go strings read as byte sequences.  The pattern of the path
    resolver only distinguishes the ASCII bytes [/], [?], [|], [.] and the
    newline, none of which occurs inside a multi-byte UTF-8 sequence, so
    matching byte by byte and matching rune by rune yield the same
    submatches. *)

From Stdlib Require Import String Ascii List Arith Bool.
From stdpp Require Import base option strings gmap.
Import ListNotations.

Local Open Scope string_scope.

(** ** regexp: the backtracking reading of Go's leftmost-first matching *)

Module Regexp.

(** One-character operands. *)
Inductive class : Type :=
| AnyCharNotNL                    (* [.] without the s flag *)
| AnyOf (cs : list ascii)         (* [[...]] *)
| NoneOf (cs : list ascii).       (* [[^...]], which does match a newline *)

Definition newline : ascii := ascii_of_nat 10.

Definition mem (c : ascii) (cs : list ascii) : bool :=
  existsb (Ascii.eqb c) cs.

Definition class_matches (cc : class) (c : ascii) : bool :=
  match cc with
  | AnyCharNotNL => negb (Ascii.eqb c newline)
  | AnyOf cs => mem c cs
  | NoneOf cs => negb (mem c cs)
  end.

(** The fragment of regexp/syntax that the dispatcher's pattern uses.  Both
    stars of the pattern have a one-character operand, so [Star] takes a
    class. *)
Inductive syntax : Type :=
| BeginText                        (* ^ *)
| EndText                          (* $ *)
| Literal (c : ascii)
| CharClass (cc : class)
| Star (cc : class)                (* greedy x* *)
| Quest (r : syntax)               (* greedy x? *)
| Concat (r1 r2 : syntax)
| Capture (n : nat) (r : syntax).

Fixpoint NumSubexp (r : syntax) : nat :=
  match r with
  | Quest r1 => NumSubexp r1
  | Concat r1 r2 => Nat.max (NumSubexp r1) (NumSubexp r2)
  | Capture n r1 => Nat.max n (NumSubexp r1)
  | _ => 0
  end.

Section Backtrack.
Context {T : Type}.

(** Greedy iteration: take one more character first, fall back to
    stopping here.  The continuation receives the text consumed and the
    text left. *)
Fixpoint star (cc : class) (s : string) (k : string -> string -> option T)
  : option T :=
  match s with
  | String c s' =>
      if class_matches cc c then
        match star cc s' (fun t rest => k (String c t) rest) with
        | Some x => Some x
        | None => k "" s
        end
      else k "" s
  | EmptyString => k "" s
  end.
End Backtrack.

Abbreviation captures := (gmap nat string).

(** [backtrack r pos s caps k]: match [r] at offset [pos], where [s] is the
    text from [pos] on; alternatives are tried in priority order and the
    first one that lets [k] succeed wins. *)
Fixpoint backtrack (r : syntax) (pos : nat) (s : string) (caps : captures)
    (k : string -> string -> captures -> option captures) : option captures :=
  match r with
  | BeginText => if Nat.eqb pos 0 then k "" s caps else None
  | EndText => match s with EmptyString => k "" s caps | _ => None end
  | Literal c =>
      match s with
      | String c' s' => if Ascii.eqb c c' then k (String c' "") s' caps else None
      | EmptyString => None
      end
  | CharClass cc =>
      match s with
      | String c' s' =>
          if class_matches cc c' then k (String c' "") s' caps else None
      | EmptyString => None
      end
  | Star cc => star cc s (fun t rest => k t rest caps)
  | Quest r1 =>
      match backtrack r1 pos s caps k with
      | Some c => Some c
      | None => k "" s caps
      end
  | Concat r1 r2 =>
      backtrack r1 pos s caps (fun t1 s1 c1 =>
        backtrack r2 (pos + String.length t1) s1 c1 (fun t2 s2 c2 =>
          k (t1 +:+ t2) s2 c2))
  | Capture n r1 =>
      backtrack r1 pos s caps (fun t s' c => k t s' (<[n:=t]> c))
  end.

(** The unanchored search: the leftmost start offset that matches. *)
Fixpoint search (r : syntax) (pos : nat) (s : string) : option captures :=
  match backtrack (Capture 0 r) pos s ∅ (fun _ _ c => Some c) with
  | Some c => Some c
  | None =>
      match s with
      | String _ s' => search r (S pos) s'
      | EmptyString => None
      end
  end.

(** [FindStringSubmatch]: the match and its groups, the empty string for a
    group that took no part; the nil slice (here [[]]) when nothing
    matches. *)
Definition FindStringSubmatch (r : syntax) (s : string) : list string :=
  match search r 0 s with
  | Some c => map (fun i => default "" (c !! i)) (seq 0 (S (NumSubexp r)))
  | None => []
  end.

End Regexp.

(** ** path/filepath *)

Module filepath.

Definition IsPathSeparator (c : ascii) : bool := Ascii.eqb c "/".

(** The loop of [Ext]: [n] is [i + 1] for the index [i] under inspection. *)
Fixpoint Ext_loop (path : string) (n : nat) : string :=
  match n with
  | 0 => ""
  | S i =>
      match String.get i path with
      | Some c =>
          if IsPathSeparator c then ""
          else if Ascii.eqb c "." then substring i (String.length path - i) path
          else Ext_loop path i
      | None => ""
      end
  end.

Definition Ext (path : string) : string := Ext_loop path (String.length path).

End filepath.

(** The pattern handed to [regexp.MustCompile] in [Handler]. *)
Definition re_source : string := "^(.*/)([^?].*)?[?|.]*$".

(** Its syntax tree: begin of text; group 1, a greedy run of [.] and a slash;
    optionally group 2, one character other than the question mark and a
    greedy run of [.]; a greedy run over the class of question mark, bar and
    dot; end of text. *)
Definition re : Regexp.syntax :=
  let any := Regexp.AnyCharNotNL in
  Regexp.Concat Regexp.BeginText
   (Regexp.Concat
      (Regexp.Capture 1 (Regexp.Concat (Regexp.Star any) (Regexp.Literal "/")))
   (Regexp.Concat
      (Regexp.Quest
         (Regexp.Capture 2
            (Regexp.Concat (Regexp.CharClass (Regexp.NoneOf ["?"%char]))
                           (Regexp.Star any))))
   (Regexp.Concat
      (Regexp.Star (Regexp.AnyOf ["?"; "|"; "."]%char))
      Regexp.EndText))).

(** ** net/http: requests and the response writer *)

Record Request : Type := mkRequest {
  Method : string;
  RequestURI : string;
}.

(** What a response writer has received: the header map, the status code
    once the header is written, and the body bytes. *)
Record ResponseWriter : Type := mkResponseWriter {
  Header : gmap string string;
  Code : option nat;
  Body : string;
}.

Module http.

Definition MethodGet : string := "GET".
Definition MethodHead : string := "HEAD".

Definition StatusOK : nat := 200.
Definition StatusMovedPermanently : nat := 301.
Definition StatusMethodNotAllowed : nat := 405.
Definition StatusInternalServerError : nat := 500.

(** The rows of the status-text table for the codes above; the other rows
    are left out and read as the empty text. *)
Definition StatusText (code : nat) : string :=
  if Nat.eqb code 200 then "OK"
  else if Nat.eqb code 301 then "Moved Permanently"
  else if Nat.eqb code 405 then "Method Not Allowed"
  else if Nat.eqb code 500 then "Internal Server Error"
  else "".

Definition NewRecorder : ResponseWriter :=
  {| Header := ∅; Code := None; Body := "" |}.

Definition Header_Set (k v : string) (w : ResponseWriter) : ResponseWriter :=
  {| Header := <[k:=v]> (Header w); Code := Code w; Body := Body w |}.

Definition Header_Del (k : string) (w : ResponseWriter) : ResponseWriter :=
  {| Header := delete k (Header w); Code := Code w; Body := Body w |}.

(** Only the first call writes the status line. *)
Definition WriteHeader (code : nat) (w : ResponseWriter) : ResponseWriter :=
  match Code w with
  | Some _ => w
  | None => {| Header := Header w; Code := Some code; Body := Body w |}
  end.

(** A write before [WriteHeader] implies status 200. *)
Definition Write (b : string) (w : ResponseWriter) : ResponseWriter :=
  let w' := WriteHeader StatusOK w in
  {| Header := Header w'; Code := Code w'; Body := Body w' +:+ b |}.

Definition Fprintln (b : string) (w : ResponseWriter) : ResponseWriter :=
  Write (b +:+ String Regexp.newline "") w.

(** [http.Error]: a plain-text reply, whatever content type was set. *)
Definition Error (w : ResponseWriter) (error : string) (code : nat)
  : ResponseWriter :=
  let w := Header_Del "Content-Length" w in
  let w := Header_Set "Content-Type" "text/plain; charset=utf-8" w in
  let w := Header_Set "X-Content-Type-Options" "nosniff" w in
  let w := WriteHeader code w in
  Fprintln error w.

(** [http.Redirect].  [target] stands for the rewriting of the url into the
    Location value (made absolute against the request path, cleaned and
    escaped) and [note] for the short HTML body; both are net/http's own
    and are kept abstract. *)
Definition Redirect (target : Request -> string -> string)
    (note : string -> nat -> string)
    (w : ResponseWriter) (r : Request) (url : string) (code : nat)
  : ResponseWriter :=
  let url := target r url in
  let hadCT := bool_decide (is_Some (Header w !! "Content-Type")) in
  let w := Header_Set "Location" url w in
  let w :=
    if negb hadCT && (String.eqb (Method r) MethodGet
                      || String.eqb (Method r) MethodHead)
    then Header_Set "Content-Type" "text/html; charset=utf-8" w else w in
  let w := WriteHeader code w in
  if negb hadCT && String.eqb (Method r) MethodGet
  then Fprintln (note url code) w else w.

End http.

(** ** The data of swagger.go *)

(** An address of a [webdav.Handler]; [*webdav.Handler] is [option loc], with
    [None] for nil. *)
Definition loc : Type := nat.

(** [webdav.Handler] as far as the dispatcher touches it: the [Prefix]
    field.  The file system, lock system and logger stay with the address. *)
Record webdav_Handler : Type := mkWebdavHandler {
  Prefix : string;
}.

(** The package-level [swaggerFiles.Handler]. *)
Definition swaggerFiles_Handler : loc := 0.

(** [swag.Name]. *)
Definition swag_Name : string := "swagger".

(** [Config]; [template.JS] is a string type. *)
Record Config : Type := mkConfig {
  URL : string;
  DocExpansion : string;
  DomID : string;
  InstanceName : string;
  BeforeScript : string;
  AfterScript : string;
  Plugins : list string;
  UIConfig : gmap string string;
  DeepLinking : bool;
  PersistAuthorization : bool;
  Config_Handler : option loc;       (* the field [Handler] *)
}.

(** Assignment to one field of a [Config]. *)
Definition set_URL (v : string) (c : Config) : Config :=
  mkConfig v (DocExpansion c) (DomID c) (InstanceName c) (BeforeScript c)
    (AfterScript c) (Plugins c) (UIConfig c) (DeepLinking c)
    (PersistAuthorization c) (Config_Handler c).

Definition set_DocExpansion (v : string) (c : Config) : Config :=
  mkConfig (URL c) v (DomID c) (InstanceName c) (BeforeScript c)
    (AfterScript c) (Plugins c) (UIConfig c) (DeepLinking c)
    (PersistAuthorization c) (Config_Handler c).

Definition set_DomID (v : string) (c : Config) : Config :=
  mkConfig (URL c) (DocExpansion c) v (InstanceName c) (BeforeScript c)
    (AfterScript c) (Plugins c) (UIConfig c) (DeepLinking c)
    (PersistAuthorization c) (Config_Handler c).

Definition set_InstanceName (v : string) (c : Config) : Config :=
  mkConfig (URL c) (DocExpansion c) (DomID c) v (BeforeScript c)
    (AfterScript c) (Plugins c) (UIConfig c) (DeepLinking c)
    (PersistAuthorization c) (Config_Handler c).

Definition set_BeforeScript (v : string) (c : Config) : Config :=
  mkConfig (URL c) (DocExpansion c) (DomID c) (InstanceName c) v
    (AfterScript c) (Plugins c) (UIConfig c) (DeepLinking c)
    (PersistAuthorization c) (Config_Handler c).

Definition set_AfterScript (v : string) (c : Config) : Config :=
  mkConfig (URL c) (DocExpansion c) (DomID c) (InstanceName c)
    (BeforeScript c) v (Plugins c) (UIConfig c) (DeepLinking c)
    (PersistAuthorization c) (Config_Handler c).

Definition set_Plugins (v : list string) (c : Config) : Config :=
  mkConfig (URL c) (DocExpansion c) (DomID c) (InstanceName c)
    (BeforeScript c) (AfterScript c) v (UIConfig c) (DeepLinking c)
    (PersistAuthorization c) (Config_Handler c).

Definition set_UIConfig (v : gmap string string) (c : Config) : Config :=
  mkConfig (URL c) (DocExpansion c) (DomID c) (InstanceName c)
    (BeforeScript c) (AfterScript c) (Plugins c) v (DeepLinking c)
    (PersistAuthorization c) (Config_Handler c).

Definition set_DeepLinking (v : bool) (c : Config) : Config :=
  mkConfig (URL c) (DocExpansion c) (DomID c) (InstanceName c)
    (BeforeScript c) (AfterScript c) (Plugins c) (UIConfig c) v
    (PersistAuthorization c) (Config_Handler c).

Definition set_PersistAuthorization (v : bool) (c : Config) : Config :=
  mkConfig (URL c) (DocExpansion c) (DomID c) (InstanceName c)
    (BeforeScript c) (AfterScript c) (Plugins c) (UIConfig c)
    (DeepLinking c) v (Config_Handler c).

Definition set_Config_Handler (v : option loc) (c : Config) : Config :=
  mkConfig (URL c) (DocExpansion c) (DomID c) (InstanceName c)
    (BeforeScript c) (AfterScript c) (Plugins c) (UIConfig c)
    (DeepLinking c) (PersistAuthorization c) v.

(** The option constructors; they share their names with the fields. *)
Module Opt.

Definition WebdavHandler (handler : option loc) : Config -> Config :=
  set_Config_Handler handler.

Definition URL (url : string) : Config -> Config := set_URL url.

Definition DeepLinking (deepLinking : bool) : Config -> Config :=
  set_DeepLinking deepLinking.

Definition DocExpansion (docExpansion : string) : Config -> Config :=
  set_DocExpansion docExpansion.

Definition DomID (domID : string) : Config -> Config := set_DomID domID.

Definition InstanceName (name : string) : Config -> Config :=
  set_InstanceName name.

Definition PersistAuthorization (persistAuthorization : bool)
  : Config -> Config :=
  set_PersistAuthorization persistAuthorization.

(** The copy into a fresh slice of [template.JS] keeps the elements. *)
Definition Plugins (plugins : list string) : Config -> Config :=
  set_Plugins plugins.

(** The copy into a fresh map keeps the entries. *)
Definition UIConfig (props : gmap string string) : Config -> Config :=
  set_UIConfig props.

Definition BeforeScript (js : string) : Config -> Config :=
  set_BeforeScript js.

Definition AfterScript (js : string) : Config -> Config :=
  set_AfterScript js.

End Opt.

Definition newConfig (configFns : list (Config -> Config)) : Config :=
  let config :=
    {| URL := "doc.json"; DocExpansion := "list"; DomID := "swagger-ui";
       InstanceName := "swagger"; BeforeScript := ""; AfterScript := "";
       Plugins := []; UIConfig := ∅; DeepLinking := true;
       PersistAuthorization := false; Config_Handler := None |} in
  let config := fold_left (fun c fn => fn c) configFns config in
  if String.eqb (InstanceName config) ""
  then set_InstanceName swag_Name config
  else config.

(** ** The state a request runs in *)

(** What outlives a request: the two variables the closure captures, [once]
    and [config], and the asset handlers that [*webdav.Handler] values point
    to. *)
Record Memory : Type := mkMemory {
  once : bool;                          (* sync.Once: has [Do] run *)
  config : Config;
  handlers : loc -> webdav_Handler;
}.

(** Accesses to shared memory, recorded for the statements below. *)
Inductive event : Type :=
| ConfigHandlerSet (l : loc)            (* config.Handler = swaggerFiles.Handler *)
| PrefixSet (l : loc) (p : string)      (* config.Handler.Prefix = matches[1] *)
| PrefixGet (l : loc) (p : string)      (* config.Handler.Prefix, read *)
| Served (l : loc) (h : webdav_Handler).
                                        (* config.Handler.ServeHTTP, and the
                                           handler as it is at the call *)

Record state : Type := mkState {
  mem : Memory;
  w : ResponseWriter;
  trace : list event;
}.

Inductive runtime_error : Type :=
| IndexOutOfRange (i len : nat)
| NilDereference.

Inductive result (A : Type) : Type :=
| Ok (a : A) (s : state)
| Panic (e : runtime_error) (s : state).
Arguments Ok {A} a s.
Arguments Panic {A} e s.

Definition M (A : Type) : Type := state -> result A.

Definition ret {A} (a : A) : M A := fun s => Ok a s.

Definition bind {A B} (c : M A) (f : A -> M B) : M B :=
  fun s => match c s with
           | Ok a s' => f a s'
           | Panic e s' => Panic e s'
           end.

Declare Scope go_scope.
Delimit Scope go_scope with go.
Notation "x <- c ;; k" := (bind c (fun x => k))
  (at level 100, c at next level, right associativity) : go_scope.
Notation "c ;; k" := (bind c (fun _ => k))
  (at level 100, right associativity) : go_scope.

Definition panic {A} (e : runtime_error) : M A := fun s => Panic e s.

Definition get_mem : M Memory := fun s => Ok (mem s) s.

Definition put_mem (m : Memory) : M unit :=
  fun s => Ok tt (mkState m (w s) (trace s)).

Definition on_w (f : ResponseWriter -> ResponseWriter) : M unit :=
  fun s => Ok tt (mkState (mem s) (f (w s)) (trace s)).

Definition emit (e : event) : M unit :=
  fun s => Ok tt (mkState (mem s) (w s) (trace s ++ [e])).

(** [xs[i]] on a slice. *)
Definition index (xs : list string) (i : nat) : M string :=
  match nth_error xs i with
  | Some x => ret x
  | None => panic (IndexOutOfRange i (length xs))
  end.

(** ** The collaborators *)

(** What the dispatcher calls and does not define: the document registry of
    swag, the execution of the parsed index template, the asset handler's
    [ServeHTTP], and the two parts of [http.Redirect] kept abstract above. *)
Record Env : Type := mkEnv {
  swag_ReadDoc : string -> string + string;   (* the document, or the error text *)
  index_Execute : Config -> string;           (* the bytes written for a context *)
  webdav_ServeHTTP :
    loc -> webdav_Handler -> ResponseWriter -> Request -> ResponseWriter;
  redirect_target : Request -> string -> string;
  redirect_note : string -> nat -> string;
}.

(** ** The handler *)

Section Dispatcher.

Variable env : Env.

Local Open Scope go_scope.

Definition http_Error (error : string) (code : nat) : M unit :=
  on_w (fun w => http.Error w error code).

Definition http_Redirect (r : Request) (url : string) (code : nat) : M unit :=
  on_w (fun w =>
    http.Redirect (redirect_target env) (redirect_note env) w r url code).

Definition Header_Set (k v : string) : M unit := on_w (http.Header_Set k v).

Definition Write (b : string) : M unit := on_w (http.Write b).

(** [index.Execute(w, config)]: the rendering reaches the writer through
    [Write]; when it renders nothing, nothing is written.  The error is
    dropped. *)
Definition index_Execute_to_w (c : Config) : M unit :=
  if String.eqb (index_Execute env c) "" then ret tt
  else Write (index_Execute env c).

(** [config.Handler = l]. *)
Definition assign_Handler (l : loc) : M unit :=
  m <- get_mem ;;
  put_mem (mkMemory (once m) (set_Config_Handler (Some l) (config m))
                    (handlers m)) ;;
  emit (ConfigHandlerSet l).

(** The pointer in [config.Handler], dereferenced. *)
Definition deref_Handler : M loc :=
  m <- get_mem ;;
  match Config_Handler (config m) with
  | Some l => ret l
  | None => panic NilDereference
  end.

(** [config.Handler.Prefix = p]. *)
Definition assign_Prefix (p : string) : M unit :=
  l <- deref_Handler ;;
  m <- get_mem ;;
  put_mem (mkMemory (once m) (config m)
                    (fun l' => if Nat.eqb l' l then mkWebdavHandler p
                               else handlers m l')) ;;
  emit (PrefixSet l p).

(** [config.Handler.Prefix]. *)
Definition read_Prefix : M string :=
  l <- deref_Handler ;;
  m <- get_mem ;;
  emit (PrefixGet l (Prefix (handlers m l))) ;;
  ret (Prefix (handlers m l)).

(** [once.Do(f)]: [f] runs unless a call has run before, and the call
    counts as done even when [f] panics. *)
Definition once_Do (f : M unit) : M unit :=
  fun s =>
    if once (mem s) then Ok tt s
    else
      let done (s' : state) : state :=
        mkState (mkMemory true (config (mem s')) (handlers (mem s')))
                (w s') (trace s') in
      match f s with
      | Ok _ s' => Ok tt (done s')
      | Panic e s' => Panic e (done s')
      end.

(** [config.Handler.ServeHTTP(w, r)]. *)
Definition delegate (r : Request) : M unit :=
  l <- deref_Handler ;;
  m <- get_mem ;;
  emit (Served l (handlers m l)) ;;
  on_w (fun w => webdav_ServeHTTP env l (handlers m l) w r).

(** The first switch: the content type by extension. *)
Definition set_content_type (ext : string) : M unit :=
  if String.eqb ext ".html" then
    Header_Set "Content-Type" "text/html; charset=utf-8"
  else if String.eqb ext ".css" then
    Header_Set "Content-Type" "text/css; charset=utf-8"
  else if String.eqb ext ".js" then
    Header_Set "Content-Type" "application/javascript"
  else if String.eqb ext ".png" then
    Header_Set "Content-Type" "image/png"
  else if String.eqb ext ".json" then
    Header_Set "Content-Type" "application/json; charset=utf-8"
  else ret tt.

(** The second switch: the branch by path. *)
Definition dispatch (r : Request) (path : string) : M unit :=
  if String.eqb path "index.html" then
    m <- get_mem ;;
    index_Execute_to_w (config m)
  else if String.eqb path "doc.json" then
    m <- get_mem ;;
    match swag_ReadDoc env (InstanceName (config m)) with
    | inr err =>
        http_Error (http.StatusText http.StatusInternalServerError)
                   http.StatusInternalServerError
    | inl doc => Write doc
    end
  else if String.eqb path "" then
    prefix <- read_Prefix ;;
    http_Redirect r (prefix +:+ "index.html") http.StatusMovedPermanently
  else
    delegate r.

(** The function [Handler] returns. *)
Definition ServeHTTP (r : Request) : M unit :=
  if negb (String.eqb (Method r) http.MethodGet) then
    http_Error "Method not allowed" http.StatusMethodNotAllowed
  else
    let matches := Regexp.FindStringSubmatch re (RequestURI r) in
    path <- index matches 2 ;;
    m <- get_mem ;;
    match Config_Handler (config m) with
    | None => assign_Handler swaggerFiles_Handler
    | Some _ => ret tt
    end ;;
    once_Do (prefix <- index matches 1 ;; assign_Prefix prefix) ;;
    set_content_type (filepath.Ext path) ;;
    dispatch r path.

Definition final {A} (o : result A) : state :=
  match o with Ok _ s => s | Panic _ s => s end.

(** One request against a dispatcher in memory [m], with a response writer
    of its own. *)
Definition serve (m : Memory) (r : Request) : result unit :=
  ServeHTTP r (mkState m http.NewRecorder []).

(** Requests one after the other; a panic ends its request only. *)
Fixpoint serve_all (m : Memory) (rs : list Request) : list (result unit) :=
  match rs with
  | [] => []
  | r :: rs' =>
      let o := serve m r in
      o :: serve_all (mem (final o)) rs'
  end.

Definition accesses (os : list (result unit)) : list event :=
  concat (map (fun o => trace (final o)) os).

(** The memory the requests leave behind. *)
Fixpoint after_all (m : Memory) (rs : list Request) : Memory :=
  match rs with
  | [] => m
  | r :: rs' => after_all (mem (final (serve m r))) rs'
  end.

End Dispatcher.

(** [Handler(configFns...)]: a fresh [once] and the built configuration, in
    a heap of asset handlers. *)
Definition Handler (configFns : list (Config -> Config))
    (heap : loc -> webdav_Handler) : Memory :=
  mkMemory false (newConfig configFns) heap.

(** [WrapHandler = Handler()]. *)
Definition WrapHandler (heap : loc -> webdav_Handler) : Memory :=
  Handler [] heap.

(** ** The two switches as functions *)

(** The content-type table, as the specification words it: from the
    extension to the header value, or no header. *)
Definition content_type_of (ext : string) : option string :=
  if String.eqb ext ".html" then Some "text/html; charset=utf-8"
  else if String.eqb ext ".css" then Some "text/css; charset=utf-8"
  else if String.eqb ext ".js" then Some "application/javascript"
  else if String.eqb ext ".png" then Some "image/png"
  else if String.eqb ext ".json" then Some "application/json; charset=utf-8"
  else None.

Definition classify (ext : string) (w : ResponseWriter) : ResponseWriter :=
  match content_type_of ext with
  | Some v => http.Header_Set "Content-Type" v w
  | None => w
  end.

(** The asset handler a dispatcher in memory [m] ends up with. *)
Definition asset_handler (m : Memory) : loc :=
  default swaggerFiles_Handler (Config_Handler (config m)).

(** Memory once a GET request with prefix [p] has passed the nil check and
    [once.Do]. *)
Definition latched (m : Memory) (p : string) : Memory :=
  let cfg := match Config_Handler (config m) with
             | None => set_Config_Handler (Some swaggerFiles_Handler) (config m)
             | Some _ => config m
             end in
  if once m then mkMemory true cfg (handlers m)
  else mkMemory true cfg
         (fun l' => if Nat.eqb l' (asset_handler m) then mkWebdavHandler p
                    else handlers m l').

(** The accesses of the nil check and [once.Do]. *)
Definition latch_accesses (m : Memory) (p : string) : list event :=
  match Config_Handler (config m) with
  | None => [ConfigHandlerSet swaggerFiles_Handler]
  | Some _ => []
  end ++
  (if once m then [] else [PrefixSet (asset_handler m) p]).

(** ** Predicates on URIs *)

(** Every character of [s] is in the class. *)
Fixpoint all_in (cc : Regexp.class) (s : string) : bool :=
  match s with
  | EmptyString => true
  | String c s' => Regexp.class_matches cc c && all_in cc s'
  end.

Fixpoint has_char (c : ascii) (s : string) : bool :=
  match s with
  | EmptyString => false
  | String c' s' => Ascii.eqb c c' || has_char c s'
  end.

(** A last segment that group 2 takes whole: empty, or starting with a
    character other than the question mark and free of newlines after it. *)
Definition plain_segment (seg : string) : bool :=
  match seg with
  | EmptyString => true
  | String c rest =>
      negb (Ascii.eqb c "?") && all_in Regexp.AnyCharNotNL rest
  end.

(** The groups as [FindStringSubmatch] reads them off the captures. *)
Definition groups_are (c : Regexp.captures) (full prefix path : string) : Prop :=
  default "" (c !! 0) = full /\ default "" (c !! 1) = prefix /\
  default "" (c !! 2) = path.

(** ** Which request latches *)

(** The prefix a request hands to [once.Do]: [matches[1]] of a GET request
    whose URI the pattern matches. *)
Definition latch_prefix (r : Request) : option string :=
  if String.eqb (Method r) http.MethodGet
  then nth_error (Regexp.FindStringSubmatch re (RequestURI r)) 1
  else None.

(** The first such prefix in a sequence of requests. *)
Fixpoint first_latch (rs : list Request) : option string :=
  match rs with
  | [] => None
  | r :: rs' =>
      match latch_prefix r with
      | Some p => Some p
      | None => first_latch rs'
      end
  end.

(** An access that involves the [Prefix] field. *)
Definition touches_Prefix (e : event) : bool :=
  match e with
  | ConfigHandlerSet _ => false
  | _ => true
  end.

(** An access that observes the [Prefix] of handler [l] as [p]: the read for
    the redirect target, or a delegation to the handler in that state. *)
Definition observes (l : loc) (p : string) (e : event) : Prop :=
  e = PrefixGet l p \/ e = Served l (mkWebdavHandler p).

(** The writes to a [Prefix] field among the accesses, in order. *)
Fixpoint Prefix_writes (tr : list event) : list (loc * string) :=
  match tr with
  | [] => []
  | PrefixSet l p :: tr' => (l, p) :: Prefix_writes tr'
  | _ :: tr' => Prefix_writes tr'
  end.

(** ** The options, reified *)

(** The fields of [Config]. *)
Inductive field : Type :=
| FURL | FDocExpansion | FDomID | FInstanceName | FBeforeScript | FAfterScript
| FPlugins | FUIConfig | FDeepLinking | FPersistAuthorization | FHandler.

(** One call of an option constructor. *)
Inductive setting : Type :=
| WithWebdavHandler (handler : option loc)
| WithURL (url : string)
| WithDeepLinking (deepLinking : bool)
| WithDocExpansion (docExpansion : string)
| WithDomID (domID : string)
| WithInstanceName (name : string)
| WithPersistAuthorization (persistAuthorization : bool)
| WithPlugins (plugins : list string)
| WithUIConfig (props : gmap string string)
| WithBeforeScript (js : string)
| WithAfterScript (js : string).

(** The function the constructor returns. *)
Definition configFn (o : setting) : Config -> Config :=
  match o with
  | WithWebdavHandler handler => Opt.WebdavHandler handler
  | WithURL url => Opt.URL url
  | WithDeepLinking deepLinking => Opt.DeepLinking deepLinking
  | WithDocExpansion docExpansion => Opt.DocExpansion docExpansion
  | WithDomID domID => Opt.DomID domID
  | WithInstanceName name => Opt.InstanceName name
  | WithPersistAuthorization b => Opt.PersistAuthorization b
  | WithPlugins plugins => Opt.Plugins plugins
  | WithUIConfig props => Opt.UIConfig props
  | WithBeforeScript js => Opt.BeforeScript js
  | WithAfterScript js => Opt.AfterScript js
  end.

(** The field it assigns. *)
Definition field_of (o : setting) : field :=
  match o with
  | WithWebdavHandler _ => FHandler
  | WithURL _ => FURL
  | WithDeepLinking _ => FDeepLinking
  | WithDocExpansion _ => FDocExpansion
  | WithDomID _ => FDomID
  | WithInstanceName _ => FInstanceName
  | WithPersistAuthorization _ => FPersistAuthorization
  | WithPlugins _ => FPlugins
  | WithUIConfig _ => FUIConfig
  | WithBeforeScript _ => FBeforeScript
  | WithAfterScript _ => FAfterScript
  end.

(** Two configurations hold the same value in a field. *)
Definition agree (f : field) (c1 c2 : Config) : Prop :=
  match f with
  | FURL => URL c1 = URL c2
  | FDocExpansion => DocExpansion c1 = DocExpansion c2
  | FDomID => DomID c1 = DomID c2
  | FInstanceName => InstanceName c1 = InstanceName c2
  | FBeforeScript => BeforeScript c1 = BeforeScript c2
  | FAfterScript => AfterScript c1 = AfterScript c2
  | FPlugins => Plugins c1 = Plugins c2
  | FUIConfig => UIConfig c1 = UIConfig c2
  | FDeepLinking => DeepLinking c1 = DeepLinking c2
  | FPersistAuthorization => PersistAuthorization c1 = PersistAuthorization c2
  | FHandler => Config_Handler c1 = Config_Handler c2
  end.

(** A dispatcher's closure variables over another heap. *)
Definition with_heap (m : Memory) (heap : loc -> webdav_Handler) : Memory :=
  mkMemory (once m) (config m) heap.

(** ** One dispatcher in a process that holds others *)

(** What the rest of the process does to the asset handlers between two
    requests leaves the [Prefix] of handler [l] alone. *)
Definition keeps_Prefix (l : loc)
    (others : (loc -> webdav_Handler) -> loc -> webdav_Handler) : Prop :=
  forall heap, Prefix (others heap l) = Prefix (heap l).

(** The requests of one dispatcher, one after the other, each on the asset
    handlers as the rest of the process has left them since the request
    before: the closure variables are the dispatcher's own, the handlers are
    shared. *)
Fixpoint serve_among (env : Env) (m : Memory)
    (steps : list (((loc -> webdav_Handler) -> loc -> webdav_Handler) * Request))
  : list (result unit) :=
  match steps with
  | [] => []
  | (others, r) :: steps' =>
      let o := serve env (with_heap m (others (handlers m))) r in
      o :: serve_among env (mem (final o)) steps'
  end.

(** From the first request that latches on, what the rest of the process
    does between the requests leaves the [Prefix] of handler [l] alone. *)
Definition undisturbed_after_latch (l : loc)
    (steps : list (((loc -> webdav_Handler) -> loc -> webdav_Handler) * Request))
  : Prop :=
  forall k others r,
    nth_error steps k = Some (others, r) ->
    first_latch (firstn k (map snd steps)) <> None ->
    keeps_Prefix l others.

(** Another dispatcher, with closure variables [mB], serves [r]: what that
    does to the asset handlers. *)
Definition other_dispatcher_serves (env : Env) (mB : Memory) (r : Request)
    (heap : loc -> webdav_Handler) : loc -> webdav_Handler :=
  handlers (mem (final (serve env (with_heap mB heap) r))).

(** The outcome [o] of request [r] shows [p] as the prefix of handler [l]:
    a redirect goes to [p] followed by [index.html], and a delegated request
    is answered by handler [l] with [Prefix] equal to [p]. *)
Definition answers_with (env : Env) (l : loc) (p : string) (r : Request)
    (o : result unit) : Prop :=
  forall full prefix path,
    Method r = "GET" ->
    Regexp.FindStringSubmatch re (RequestURI r) = [full; prefix; path] ->
    (path = "" ->
     Header (w (final o)) !! "Location" =
       Some (redirect_target env r (p +:+ "index.html"))) /\
    (path <> "" -> path <> "index.html" -> path <> "doc.json" ->
     w (final o) =
       webdav_ServeHTTP env l (mkWebdavHandler p)
         (classify (filepath.Ext path) http.NewRecorder) r).

(** ** Sample data *)

Definition GET (uri : string) : Request := mkRequest "GET" uri.
Definition POST (uri : string) : Request := mkRequest "POST" uri.

(** A registry that holds one document, under [swag.Name]; a template that
    renders two of the options; an asset handler that answers with its
    prefix; a redirect whose target needs no rewriting. *)
Definition sample_env : Env :=
  mkEnv (fun name => if String.eqb name "swagger" then inl "{}"
                     else inr "no swag named so was registered")
        (fun c => "<html>" +:+ URL c +:+ " " +:+ DocExpansion c +:+ "</html>")
        (fun l h w r => http.Write ("asset under " +:+ Prefix h) w)
        (fun r url => url)
        (fun url code => "<a>" +:+ url +:+ "</a>").

(** The same with an empty registry. *)
Definition empty_registry_env : Env :=
  mkEnv (fun name => inr "no swag has yet been registered")
        (index_Execute sample_env) (webdav_ServeHTTP sample_env)
        (redirect_target sample_env) (redirect_note sample_env).

Definition sample_heap : loc -> webdav_Handler := fun _ => mkWebdavHandler "".

(** ** Lemmas on the model *)

Lemma FindStringSubmatch_re_shape (s : string) :
  Regexp.FindStringSubmatch re s = [] \/
  exists full prefix path, Regexp.FindStringSubmatch re s = [full; prefix; path].
Proof.
  unfold Regexp.FindStringSubmatch.
  destruct (Regexp.search re 0 s) as [c|]; [right | left; reflexivity].
  simpl. eauto.
Qed.

Lemma set_content_type_classify (ext : string) (s : state) :
  set_content_type ext s = Ok tt (mkState (mem s) (classify ext (w s)) (trace s)).
Proof.
  unfold set_content_type, classify, content_type_of.
  repeat (destruct (String.eqb ext _); [reflexivity|]).
  destruct s; reflexivity.
Qed.

(** A GET request whose URI the pattern matches reaches the second switch
    with the memory latched and the content type classified. *)
Lemma serve_GET (env : Env) (m : Memory) (r : Request) (full prefix path : string) :
  Method r = "GET" ->
  Regexp.FindStringSubmatch re (RequestURI r) = [full; prefix; path] ->
  serve env m r =
  dispatch env r path
    (mkState (latched m prefix) (classify (filepath.Ext path) http.NewRecorder)
             (latch_accesses m prefix)).
Proof.
  intros HM Hre. unfold serve, ServeHTTP. rewrite HM, Hre.
  change (negb ("GET" =? http.MethodGet)) with false. cbv iota.
  destruct m as [o cfg hs].
  unfold latched, latch_accesses, asset_handler.
  cbv [bind index nth_error ret get_mem once_Do assign_Handler assign_Prefix
       deref_Handler put_mem emit mem config once handlers w trace].
  destruct (Config_Handler cfg) as [l|] eqn:Hh; destruct o; cbn.
  all: try rewrite Hh; cbn.
  all: rewrite set_content_type_classify; reflexivity.
Qed.

(** A request of another method is answered by [http.Error] alone. *)
Lemma serve_not_GET (env : Env) (m : Memory) (r : Request) :
  Method r <> "GET" ->
  serve env m r =
  Ok tt (mkState m (http.Error http.NewRecorder "Method not allowed" 405) []).
Proof.
  intros HM. unfold serve, ServeHTTP.
  destruct (String.eqb_spec (Method r) http.MethodGet) as [E|_].
  - contradiction.
  - reflexivity.
Qed.

(** A GET request whose URI the pattern does not match panics at
    [matches[2]], before anything is written. *)
Lemma serve_GET_no_match (env : Env) (m : Memory) (r : Request) :
  Method r = "GET" ->
  Regexp.FindStringSubmatch re (RequestURI r) = [] ->
  serve env m r = Panic (IndexOutOfRange 2 0) (mkState m http.NewRecorder []).
Proof.
  intros HM Hre. unfold serve, ServeHTTP. rewrite HM, Hre. reflexivity.
Qed.

(** The second switch, branch by branch. *)
Lemma dispatch_index (env : Env) (r : Request) (s : state) :
  dispatch env r "index.html" s =
  Ok tt (mkState (mem s)
           (if String.eqb (index_Execute env (config (mem s))) "" then w s
            else http.Write (index_Execute env (config (mem s))) (w s))
           (trace s)).
Proof.
  unfold dispatch. cbn [String.eqb Ascii.eqb Bool.eqb].
  cbv [bind get_mem index_Execute_to_w].
  destruct (String.eqb (index_Execute env (config (mem s))) "");
    [destruct s|]; reflexivity.
Qed.

Lemma dispatch_doc (env : Env) (r : Request) (s : state) :
  dispatch env r "doc.json" s =
  Ok tt (mkState (mem s)
           match swag_ReadDoc env (InstanceName (config (mem s))) with
           | inl doc => http.Write doc (w s)
           | inr _ => http.Error (w s) "Internal Server Error" 500
           end
           (trace s)).
Proof.
  unfold dispatch. cbn [String.eqb Ascii.eqb Bool.eqb].
  cbv [bind get_mem]. destruct (swag_ReadDoc env _); reflexivity.
Qed.

Lemma dispatch_empty (env : Env) (r : Request) (s : state) (l : loc) :
  Config_Handler (config (mem s)) = Some l ->
  dispatch env r "" s =
  Ok tt (mkState (mem s)
           (http.Redirect (redirect_target env) (redirect_note env) (w s) r
              (Prefix (handlers (mem s) l) +:+ "index.html") 301)
           (trace s ++ [PrefixGet l (Prefix (handlers (mem s) l))])).
Proof.
  intros Hh. unfold dispatch. cbn [String.eqb].
  cbv [bind read_Prefix deref_Handler get_mem emit ret http_Redirect on_w].
  rewrite Hh. reflexivity.
Qed.

Lemma dispatch_other (env : Env) (r : Request) (path : string) (s : state) (l : loc) :
  path <> "index.html" -> path <> "doc.json" -> path <> "" ->
  Config_Handler (config (mem s)) = Some l ->
  dispatch env r path s =
  Ok tt (mkState (mem s)
           (webdav_ServeHTTP env l (handlers (mem s) l) (w s) r)
           (trace s ++ [Served l (handlers (mem s) l)])).
Proof.
  intros H1 H2 H3 Hh. unfold dispatch.
  destruct (String.eqb_spec path "index.html"); [contradiction|].
  destruct (String.eqb_spec path "doc.json"); [contradiction|].
  destruct (String.eqb_spec path ""); [contradiction|].
  cbv [delegate bind deref_Handler get_mem emit ret on_w].
  rewrite Hh. reflexivity.
Qed.

(** After the nil check the pointer is set, and it is the asset handler. *)
Lemma latched_Handler (m : Memory) (p : string) :
  Config_Handler (config (latched m p)) = Some (asset_handler m).
Proof.
  unfold latched, asset_handler.
  destruct (Config_Handler (config m)) eqn:E; destruct (once m); cbn; auto.
Qed.

Lemma latched_once (m : Memory) (p : string) : once (latched m p) = true.
Proof. unfold latched. destruct (once m); reflexivity. Qed.

Lemma latched_Prefix (m : Memory) (p : string) :
  Prefix (handlers (latched m p) (asset_handler m)) =
  if once m then Prefix (handlers m (asset_handler m)) else p.
Proof.
  unfold latched. destruct (once m); cbn; [reflexivity|].
  rewrite Nat.eqb_refl. reflexivity.
Qed.

(** ** What the pattern matches *)

Section Pattern.

Import Regexp.

Lemma append_nil_l (s : string) : "" +:+ s = s.
Proof. reflexivity. Qed.

Lemma append_cons (c : ascii) (a b : string) :
  String c a +:+ b = String c (a +:+ b).
Proof. reflexivity. Qed.

Lemma append_nil_r (s : string) : s +:+ "" = s.
Proof.
  induction s as [|x s IH]; [reflexivity|]. rewrite append_cons, IH. reflexivity.
Qed.

Lemma append_assoc (a b c : string) : (a +:+ b) +:+ c = a +:+ (b +:+ c).
Proof.
  induction a as [|x a IH]; [reflexivity|].
  rewrite !append_cons, IH. reflexivity.
Qed.

Lemma has_char_append (c : ascii) (a b : string) :
  has_char c (a +:+ b) = has_char c a || has_char c b.
Proof.
  induction a as [|x a IH]; [reflexivity|].
  rewrite append_cons. cbn [has_char]. rewrite IH. apply orb_assoc.
Qed.

Context {T : Type}.

(** When every longer run fails, the star stops where it stands. *)
Lemma star_fallback (cc : class) (s : string) (k : string -> string -> option T) :
  (forall a b, a <> "" -> s = a +:+ b -> k a b = None) ->
  star cc s k = k "" s.
Proof.
  revert k. induction s as [|c s IH]; intros k Hk; cbn; [reflexivity|].
  destruct (class_matches cc c); [|reflexivity].
  rewrite IH.
  - rewrite (Hk (String c "") s); [reflexivity|discriminate|reflexivity].
  - intros a b Ha ->. apply Hk; [discriminate|reflexivity].
Qed.

(** The star takes the run [u] when the continuation accepts there and
    refuses every longer run. *)
Lemma star_split (cc : class) (u v : string) (k : string -> string -> option T)
    (x : T) :
  all_in cc u = true ->
  k u v = Some x ->
  (forall a b, a <> "" -> v = a +:+ b -> k (u +:+ a) b = None) ->
  star cc (u +:+ v) k = Some x.
Proof.
  revert k. induction u as [|c u IH]; intros k Hu Hk Hlong.
  - rewrite append_nil_l. rewrite star_fallback; [exact Hk|exact Hlong].
  - cbn in Hu. apply andb_true_iff in Hu as [Hc Hu].
    rewrite append_cons. cbn [star]. rewrite Hc.
    rewrite (IH (fun t rest => k (String c t) rest)); auto.
Qed.

Lemma star_all (cc : class) (s : string) (k : string -> string -> option T)
    (x : T) :
  all_in cc s = true -> k s "" = Some x -> star cc s k = Some x.
Proof.
  intros Hs Hk. rewrite <- (append_nil_r s) at 1.
  apply star_split; auto.
  - intros a b Ha E. destruct a; [congruence|discriminate].
Qed.

(** When the continuation refuses every run, so does the star. *)
Lemma star_none (cc : class) (s : string) (k : string -> string -> option T) :
  (forall a b, s = a +:+ b -> k a b = None) -> star cc s k = None.
Proof.
  intros Hk. rewrite star_fallback.
  - apply (Hk "" s). reflexivity.
  - intros a b _. apply Hk.
Qed.

End Pattern.

(** A URI without a slash is not matched. *)
Lemma FindStringSubmatch_no_slash (uri : string) :
  has_char "/" uri = false -> Regexp.FindStringSubmatch re uri = [].
Proof.
  intros Hno. unfold Regexp.FindStringSubmatch.
  assert (Hs : forall s pos, Regexp.search re (S pos) s = None).
  { induction s as [|c s IH]; intros pos; cbn; [reflexivity|]. apply IH. }
  assert (H0 : Regexp.search re 0 uri = None); [|rewrite H0; reflexivity].
  assert (Hb : Regexp.backtrack (Regexp.Capture 0 re) 0 uri ∅
                 (fun _ _ c => Some c) = None).
  { cbn [Regexp.backtrack re Nat.eqb]. apply star_none.
    intros a b ->. rewrite has_char_append in Hno.
    apply orb_false_iff in Hno as [_ Hb].
    destruct b as [|c b]; [reflexivity|].
    cbn [has_char] in Hb. apply orb_false_iff in Hb as [Hc _].
    rewrite Hc. reflexivity. }
  destruct uri; cbn [Regexp.search]; rewrite Hb; [reflexivity|apply Hs].
Qed.

(** For a URI [d/seg] whose last segment is plain, group 1 is [d/] and
    group 2 is [seg], whatever [seg] holds after its first character. *)
Lemma FindStringSubmatch_segment (d seg : string) :
  all_in Regexp.AnyCharNotNL d = true ->
  has_char "/" seg = false ->
  plain_segment seg = true ->
  Regexp.FindStringSubmatch re (d +:+ String "/" seg) =
  [d +:+ String "/" seg; d +:+ "/"; seg].
Proof.
  intros Hd Hno Hseg. unfold Regexp.FindStringSubmatch.
  assert (Hb : exists c,
             Regexp.backtrack (Regexp.Capture 0 re) 0 (d +:+ String "/" seg) ∅
               (fun _ _ c => Some c) = Some c /\
             groups_are c (d +:+ String "/" seg) (d +:+ "/") seg).
  { assert (Hsuf : forall a b, a <> "" -> String "/" seg = a +:+ b ->
                       has_char "/" b = false).
    { intros a b Ha E. destruct a as [|x a]; [congruence|].
      rewrite append_cons in E. injection E as _ E. subst seg.
      rewrite has_char_append in Hno. apply orb_false_iff in Hno as [_ Hb].
      exact Hb. }
    cbn [Regexp.backtrack re Nat.eqb].
    destruct seg as [|c seg].
    - eexists. split.
      + apply star_split; [exact Hd| |].
        * change (Ascii.eqb "/" "/") with true. cbv iota.
          cbn [Regexp.star]. reflexivity.
        * intros a b Ha E. specialize (Hsuf a b Ha E).
          destruct b as [|c' b]; [reflexivity|].
          cbn [has_char] in Hsuf. apply orb_false_iff in Hsuf as [Hc' _].
          rewrite Hc'. reflexivity.
      + unfold groups_are. rewrite !append_nil_l, !append_nil_r.
        rewrite lookup_insert_eq, lookup_insert_ne, lookup_insert_eq by discriminate.
        rewrite !lookup_insert_ne, lookup_empty by discriminate. auto.
    - cbn [plain_segment] in Hseg. apply andb_true_iff in Hseg as [Hc Hrest].
      eexists. split.
      + apply star_split; [exact Hd| |].
        * change (Ascii.eqb "/" "/") with true. cbv iota.
          cbn [Regexp.class_matches Regexp.mem existsb]. rewrite orb_false_r.
          rewrite Hc.
          erewrite (star_all _ seg); [reflexivity|exact Hrest|].
          cbn [Regexp.star]. reflexivity.
        * intros a b Ha E. specialize (Hsuf a b Ha E).
          destruct b as [|c' b]; [reflexivity|].
          cbn [has_char] in Hsuf. apply orb_false_iff in Hsuf as [Hc' _].
          rewrite Hc'. reflexivity.
      + unfold groups_are. rewrite !append_nil_l, !append_nil_r.
        rewrite lookup_insert_eq.
        rewrite (lookup_insert_ne _ 0 1), (lookup_insert_ne _ 2 1) by discriminate.
        rewrite lookup_insert_eq.
        rewrite (lookup_insert_ne _ 0 2) by discriminate.
        rewrite lookup_insert_eq. cbn [default].
        rewrite append_assoc, !append_cons, append_nil_l. auto. }
  destruct Hb as (c & Hb & H0 & H1 & H2).
  assert (Hs : Regexp.search re 0 (d +:+ String "/" seg) = Some c).
  { destruct (d +:+ String "/" seg); cbn [Regexp.search]; rewrite Hb; reflexivity. }
  rewrite Hs. change (Regexp.NumSubexp re) with 2.
  cbn [seq map]. rewrite H0, H1, H2. reflexivity.
Qed.

(** A GET request for a URI without a slash panics. *)
Lemma serve_GET_no_slash (env : Env) (m : Memory) (r : Request) :
  Method r = "GET" ->
  has_char "/" (RequestURI r) = false ->
  serve env m r = Panic (IndexOutOfRange 2 0) (mkState m http.NewRecorder []).
Proof.
  intros HM Hno. apply serve_GET_no_match; [exact HM|].
  apply FindStringSubmatch_no_slash, Hno.
Qed.

Lemma all_in_append (cc : Regexp.class) (a b : string) :
  all_in cc (a +:+ b) = all_in cc a && all_in cc b.
Proof.
  induction a as [|x a IH]; [reflexivity|].
  rewrite append_cons. cbn [all_in]. rewrite IH. apply andb_assoc.
Qed.

(** The second switch leaves the memory alone, and what it reads of the
    asset handler is the prefix the memory holds. *)
Lemma dispatch_effects (env : Env) (r : Request) (path : string) (s : state)
    (l : loc) :
  Config_Handler (config (mem s)) = Some l ->
  exists w' tr',
    dispatch env r path s = Ok tt (mkState (mem s) w' (trace s ++ tr')) /\
    Forall (observes l (Prefix (handlers (mem s) l))) tr'.
Proof.
  intros Hh.
  destruct (String.eqb_spec path "index.html") as [->|N1].
  { rewrite dispatch_index. eexists _, []. rewrite app_nil_r. split; auto. }
  destruct (String.eqb_spec path "doc.json") as [->|N2].
  { rewrite dispatch_doc. eexists _, []. rewrite app_nil_r. split; auto. }
  destruct (String.eqb_spec path "") as [->|N3].
  { rewrite (dispatch_empty env r s l Hh). eexists _, [_]. split; [reflexivity|].
    constructor; [left; reflexivity|constructor]. }
  rewrite (dispatch_other env r path s l N1 N2 N3 Hh).
  eexists _, [_]. split; [reflexivity|].
  constructor; [right|constructor].
  destruct (handlers (mem s) l); reflexivity.
Qed.

(** What a request does to the memory, by the prefix it latches. *)
Lemma serve_mem (env : Env) (m : Memory) (r : Request) :
  mem (final (serve env m r)) =
  match latch_prefix r with
  | Some p => latched m p
  | None => m
  end.
Proof.
  unfold latch_prefix.
  destruct (String.eqb_spec (Method r) http.MethodGet) as [HM|HM].
  - destruct (FindStringSubmatch_re_shape (RequestURI r))
      as [Hre|(full & p & path & Hre)]; rewrite Hre.
    + rewrite (serve_GET_no_match env m r HM Hre). reflexivity.
    + rewrite (serve_GET env m r full p path HM Hre).
      destruct (dispatch_effects env r path
                  (mkState (latched m p)
                     (classify (filepath.Ext path) http.NewRecorder)
                     (latch_accesses m p))
                  (asset_handler m) (latched_Handler m p))
        as (w' & tr' & -> & _).
      reflexivity.
  - rewrite (serve_not_GET env m r HM). reflexivity.
Qed.

(** Once latched, the memory is a fixed point of the latch. *)
Lemma latched_idem (m : Memory) (p p' : string) :
  latched (latched m p) p' = latched m p.
Proof.
  destruct m as [o cfg hs]. unfold latched. cbn [config once handlers].
  destruct (Config_Handler cfg) eqn:Hh; destruct o; cbn; rewrite ?Hh; reflexivity.
Qed.

Lemma latched_accesses_none (m : Memory) (p p' : string) :
  latch_accesses (latched m p) p' = [].
Proof.
  unfold latch_accesses. rewrite latched_Handler, latched_once. reflexivity.
Qed.

(** ** The latch over a sequence of requests *)

Lemma Prefix_writes_app (tr1 tr2 : list event) :
  Prefix_writes (tr1 ++ tr2) = (Prefix_writes tr1 ++ Prefix_writes tr2)%list.
Proof.
  induction tr1 as [|e tr1 IH]; [reflexivity|].
  destruct e; cbn; rewrite IH; reflexivity.
Qed.

Lemma Prefix_writes_untouched (tr : list event) :
  Forall (fun e => touches_Prefix e = false) tr -> Prefix_writes tr = [].
Proof.
  induction 1 as [|e tr He _ IH]; [reflexivity|].
  destruct e; try discriminate. exact IH.
Qed.

Lemma Prefix_writes_observes (l : loc) (p : string) (tr : list event) :
  Forall (observes l p) tr -> Prefix_writes tr = [].
Proof.
  induction 1 as [|e tr He _ IH]; [reflexivity|].
  destruct He as [-> | ->]; exact IH.
Qed.

(** What a request does to shared memory, by the prefix it latches. *)
Lemma serve_trace (env : Env) (m : Memory) (r : Request) :
  match latch_prefix r with
  | Some p =>
      exists tr',
        trace (final (serve env m r)) = (latch_accesses m p ++ tr')%list /\
        Forall (observes (asset_handler m)
                  (if once m then Prefix (handlers m (asset_handler m)) else p))
               tr'
  | None => trace (final (serve env m r)) = []
  end.
Proof.
  unfold latch_prefix.
  destruct (String.eqb_spec (Method r) http.MethodGet) as [HM|HM].
  - destruct (FindStringSubmatch_re_shape (RequestURI r))
      as [Hre|(full & p & path & Hre)]; rewrite Hre; cbn [nth_error].
    + rewrite (serve_GET_no_match env m r HM Hre). reflexivity.
    + rewrite (serve_GET env m r full p path HM Hre).
      destruct (dispatch_effects env r path
                  (mkState (latched m p)
                     (classify (filepath.Ext path) http.NewRecorder)
                     (latch_accesses m p))
                  (asset_handler m) (latched_Handler m p))
        as (w' & tr' & -> & Hobs).
      cbn [mem] in Hobs. rewrite latched_Prefix in Hobs.
      exists tr'. split; [reflexivity|exact Hobs].
  - rewrite (serve_not_GET env m r HM). reflexivity.
Qed.

Lemma latched_fixed (m : Memory) (l : loc) (p : string) :
  once m = true -> Config_Handler (config m) = Some l -> latched m p = m.
Proof.
  intros Ho Hh. destruct m as [o cfg hs]. cbn in Ho, Hh. subst o.
  unfold latched. cbn. rewrite Hh. reflexivity.
Qed.

(** ** The model on concrete inputs *)

Example resolve_entry_page :
  Regexp.FindStringSubmatch re "/api/docs/index.html" =
  ["/api/docs/index.html"; "/api/docs/"; "index.html"].
Proof. reflexivity. Qed.

Example resolve_bare_prefix :
  Regexp.FindStringSubmatch re "/api/docs/" = ["/api/docs/"; "/api/docs/"; ""].
Proof. reflexivity. Qed.

Example resolve_bare_question_mark :
  Regexp.FindStringSubmatch re "/api/docs/?" = ["/api/docs/?"; "/api/docs/"; ""].
Proof. reflexivity. Qed.

Example resolve_query_after_prefix :
  Regexp.FindStringSubmatch re "/api/docs/?foo" =
  ["/api/docs/?foo"; "/api/"; "docs/?foo"].
Proof. reflexivity. Qed.

Example resolve_slash_in_query :
  Regexp.FindStringSubmatch re "/a/b?x=/c" = ["/a/b?x=/c"; "/a/b?x=/"; "c"].
Proof. reflexivity. Qed.

Example Ext_examples :
  filepath.Ext "index.html" = ".html" /\ filepath.Ext "a.tar.gz" = ".gz" /\
  filepath.Ext "a.b/c" = "" /\ filepath.Ext "" = "" /\
  filepath.Ext "x.css?v=1" = ".css?v=1".
Proof. repeat split. Qed.

Example newConfig_defaults :
  newConfig [] =
  mkConfig "doc.json" "list" "swagger-ui" "swagger" "" "" [] ∅ true false None.
Proof. reflexivity. Qed.

Example newConfig_options_in_order :
  DocExpansion (newConfig [Opt.DocExpansion "full"; Opt.DocExpansion "none"]) =
    "none" /\
  InstanceName (newConfig [Opt.InstanceName ""]) = swag_Name.
Proof. split; reflexivity. Qed.

Example css_is_delegated :
  final (serve sample_env (Handler [] sample_heap) (GET "/api/docs/foo.css")) =
  mkState
    (mkMemory true
       (set_Config_Handler (Some swaggerFiles_Handler) (newConfig []))
       (handlers (latched (Handler [] sample_heap) "/api/docs/")))
    (http.Write "asset under /api/docs/"
       (http.Header_Set "Content-Type" "text/css; charset=utf-8"
          http.NewRecorder))
    [ConfigHandlerSet swaggerFiles_Handler;
     PrefixSet swaggerFiles_Handler "/api/docs/";
     Served swaggerFiles_Handler (mkWebdavHandler "/api/docs/")].
Proof. reflexivity. Qed.

(** ** Properties of the dispatcher *)

(** C8: a request whose method is not GET, on any path, is answered with
    status 405 and the plain-text line "Method not allowed", and nothing
    else happens: the outcome is [http.Error] on the fresh writer, whatever
    the URI and the collaborators are (no path resolution, no classifier
    header, no branch), with the memory as it was and no access to it. *)
Theorem method_not_allowed (env : Env) (m : Memory) (r : Request) :
  Method r <> "GET" ->
  serve env m r =
    Ok tt (mkState m
             (http.Error http.NewRecorder "Method not allowed"
                         http.StatusMethodNotAllowed) []) /\
  Code (w (final (serve env m r))) = Some 405 /\
  Body (w (final (serve env m r))) =
    "Method not allowed" +:+ String Regexp.newline "" /\
  Header (w (final (serve env m r))) !! "Content-Type" =
    Some "text/plain; charset=utf-8".
Proof.
  intros HM. rewrite (serve_not_GET env m r HM). repeat split.
Qed.

Lemma method_not_allowed_witness :
  Method (POST "/api/docs/index.html") <> "GET" /\
  Code (w (final (serve sample_env (Handler [] sample_heap)
                    (POST "/api/docs/index.html")))) = Some 405.
Proof.
  split; [discriminate|].
  apply (method_not_allowed sample_env (Handler [] sample_heap)
           (POST "/api/docs/index.html")).
  discriminate.
Defined.



(** C2: the resolved relative path keeps the query string.  For every URI
    [d/index.html?q], with [d] and [q] free of newlines and [q] free of
    slashes, group 1 is [d/] and group 2 is [index.html?q], which is not
    [index.html]; the request reaches the asset handler, not the entry
    page. *)
Theorem query_kept_in_path (env : Env) (m : Memory) (d q : string) :
  all_in Regexp.AnyCharNotNL d = true ->
  all_in Regexp.AnyCharNotNL q = true ->
  has_char "/" q = false ->
  Regexp.FindStringSubmatch re (d +:+ "/index.html?" +:+ q) =
    [d +:+ "/index.html?" +:+ q; d +:+ "/"; "index.html?" +:+ q] /\
  "index.html?" +:+ q <> "index.html" /\
  exists h,
    In (Served (asset_handler m) h)
       (trace (final (serve env m (GET (d +:+ "/index.html?" +:+ q))))).
Proof.
  intros Hd Hq Hno.
  assert (Hre : Regexp.FindStringSubmatch re (d +:+ "/index.html?" +:+ q) =
                [d +:+ "/index.html?" +:+ q; d +:+ "/"; "index.html?" +:+ q]).
  { rewrite (append_cons "/" "index.html?" q).
    apply FindStringSubmatch_segment; [exact Hd| |].
    - rewrite has_char_append, Hno. reflexivity.
    - rewrite append_cons. cbn [plain_segment]. rewrite all_in_append, Hq.
      reflexivity. }
  assert (N1 : "index.html?" +:+ q <> "index.html").
  { rewrite !append_cons, append_nil_l. discriminate. }
  assert (N2 : "index.html?" +:+ q <> "doc.json").
  { rewrite !append_cons. discriminate. }
  assert (N3 : "index.html?" +:+ q <> "").
  { rewrite !append_cons. discriminate. }
  split; [exact Hre|]. split; [exact N1|].
  rewrite (serve_GET env m (GET _) _ _ _ eq_refl Hre).
  erewrite dispatch_other; [|exact N1|exact N2|exact N3|apply latched_Handler].
  cbn [final trace]. eexists. apply in_or_app. right. left. reflexivity.
Qed.

Lemma query_kept_in_path_witness :
  Regexp.FindStringSubmatch re "/api/docs/index.html?foo=bar" =
    ["/api/docs/index.html?foo=bar"; "/api/docs/"; "index.html?foo=bar"].
Proof.
  apply (query_kept_in_path sample_env (Handler [] sample_heap)
           "/api/docs" "foo=bar"); reflexivity.
Defined.

(** C3: a GET request whose URI the pattern does not match makes the handler
    panic: [FindStringSubmatch] returns nil and [matches[2]] is out of
    range.  So it is for the URI [/?foo=bar] and for a URI without a
    slash. *)
Theorem unmatched_GET_panics (env : Env) (m : Memory) :
  Regexp.FindStringSubmatch re "/?foo=bar" = [] /\
  serve env m (GET "/?foo=bar") =
    Panic (IndexOutOfRange 2 0) (mkState m http.NewRecorder []) /\
  serve env m (GET "*") =
    Panic (IndexOutOfRange 2 0) (mkState m http.NewRecorder []).
Proof.
  split; [reflexivity|]. split.
  - apply serve_GET_no_match; reflexivity.
  - apply serve_GET_no_slash; reflexivity.
Qed.

(** C4 (as the code has it): a request leaves every option of the
    Configuration as it was; the asset-handler reference keeps its value
    when it was set at construction, and when it was nil a GET request whose
    URI the pattern matches sets it to the default asset handler. *)
Theorem config_after_request (env : Env) (m : Memory) (r : Request) :
  let c := config m in
  let c' := config (mem (final (serve env m r))) in
  URL c' = URL c /\ DocExpansion c' = DocExpansion c /\ DomID c' = DomID c /\
  InstanceName c' = InstanceName c /\
  BeforeScript c' = BeforeScript c /\ AfterScript c' = AfterScript c /\
  Plugins c' = Plugins c /\ UIConfig c' = UIConfig c /\
  DeepLinking c' = DeepLinking c /\
  PersistAuthorization c' = PersistAuthorization c /\
  Config_Handler c' =
    match Config_Handler c, latch_prefix r with
    | None, Some _ => Some swaggerFiles_Handler
    | h, _ => h
    end.
Proof.
  cbv zeta. rewrite serve_mem.
  destruct (latch_prefix r) as [p|].
  - unfold latched.
    destruct (Config_Handler (config m)) eqn:Hh; destruct (once m);
      cbn; rewrite ?Hh; repeat split.
  - destruct (Config_Handler (config m)); repeat split.
Qed.

(** C4 as stated fails: after the first GET request to a dispatcher built
    without an asset handler, the reference is no longer nil. *)
Lemma config_Handler_is_written :
  Config_Handler
    (config (mem (final (serve sample_env (Handler [] sample_heap)
                            (GET "/api/docs/index.html"))))) <>
  Config_Handler (config (Handler [] sample_heap)).
Proof. discriminate. Qed.

(** C5: a GET request whose relative path is [doc.json] returns; when the
    registry yields the document for [InstanceName] the status is 200 and
    the body is the document; when it fails the status is 500 and the body
    is the line of the generic status text, which is not empty, is the same
    for every error and holds no byte of a document. *)
Theorem doc_json_response (env : Env) (m : Memory) (r : Request)
    (full prefix : string) :
  Method r = "GET" ->
  Regexp.FindStringSubmatch re (RequestURI r) = [full; prefix; "doc.json"] ->
  exists s,
    serve env m r = Ok tt s /\
    match swag_ReadDoc env (InstanceName (config m)) with
    | inl doc =>
        Code (w s) = Some 200 /\ Body (w s) = doc
    | inr err =>
        Code (w s) = Some 500 /\
        Body (w s) = "Internal Server Error" +:+ String Regexp.newline "" /\
        Body (w s) <> ""
    end.
Proof.
  intros HM Hre. rewrite (serve_GET env m r full prefix _ HM Hre).
  rewrite dispatch_doc. eexists. split; [reflexivity|]. cbn [w mem].
  assert (Hn : InstanceName (config (latched m prefix)) = InstanceName (config m)).
  { unfold latched. destruct (Config_Handler (config m)); destruct (once m);
      reflexivity. }
  rewrite Hn.
  destruct (swag_ReadDoc env (InstanceName (config m))) as [doc|err].
  - split; reflexivity.
  - repeat split. discriminate.
Qed.

Lemma doc_json_response_witness :
  Method (GET "/api/docs/doc.json") = "GET" /\
  Regexp.FindStringSubmatch re (RequestURI (GET "/api/docs/doc.json")) =
    ["/api/docs/doc.json"; "/api/docs/"; "doc.json"] /\
  exists s,
    serve empty_registry_env (Handler [] sample_heap) (GET "/api/docs/doc.json")
    = Ok tt s /\
    Code (w s) = Some 500 /\
    Body (w s) = "Internal Server Error" +:+ String Regexp.newline "" /\
    Body (w s) <> "".
Proof.
  split; [reflexivity|]. split; [reflexivity|].
  apply (doc_json_response empty_registry_env (Handler [] sample_heap)
           (GET "/api/docs/doc.json") "/api/docs/doc.json" "/api/docs/");
    reflexivity.
Defined.

(** C6 (as the code has it): for a GET request whose URI the pattern
    matches, the second switch starts on a writer that holds nothing but the
    content type the table gives for the extension of the relative path, or
    no content type when the table has none.  The entry page and a
    document that was fetched go out under that header.  When the fetch
    fails, [http.Error] replaces it by text/plain; the redirect branch,
    whose path has no extension, gets its content type from
    [http.Redirect]. *)
Theorem content_type_by_extension (env : Env) (m : Memory) (r : Request)
    (full prefix path : string) :
  Method r = "GET" ->
  Regexp.FindStringSubmatch re (RequestURI r) = [full; prefix; path] ->
  (exists s0,
     serve env m r = dispatch env r path s0 /\
     Header (w s0) !! "Content-Type" = content_type_of (filepath.Ext path) /\
     Code (w s0) = None /\ Body (w s0) = "") /\
  (path = "index.html" ->
     Header (w (final (serve env m r))) !! "Content-Type" =
       Some "text/html; charset=utf-8") /\
  (path = "doc.json" ->
     Header (w (final (serve env m r))) !! "Content-Type" =
       match swag_ReadDoc env (InstanceName (config m)) with
       | inl _ => Some "application/json; charset=utf-8"
       | inr _ => Some "text/plain; charset=utf-8"
       end) /\
  (path = "" ->
     content_type_of (filepath.Ext path) = None /\
     Header (w (final (serve env m r))) !! "Content-Type" =
       Some "text/html; charset=utf-8").
Proof.
  intros HM Hre. rewrite (serve_GET env m r full prefix path HM Hre).
  split; [|split; [|split]].
  - eexists. split; [reflexivity|]. cbn [w]. unfold classify.
    destruct (content_type_of (filepath.Ext path)) as [v|]; cbn;
      [rewrite lookup_insert_eq|rewrite lookup_empty]; auto.
  - intros ->. rewrite dispatch_index. cbn [final w mem].
    destruct (String.eqb (index_Execute env (config (latched m prefix))) "");
      reflexivity.
  - intros ->. rewrite dispatch_doc. cbn [final w mem].
    assert (Hn : InstanceName (config (latched m prefix)) =
                 InstanceName (config m)).
    { unfold latched. destruct (Config_Handler (config m)); destruct (once m);
        reflexivity. }
    rewrite Hn.
    destruct (swag_ReadDoc env (InstanceName (config m))); reflexivity.
  - intros ->. split; [reflexivity|].
    rewrite (dispatch_empty env _ _ (asset_handler m)) by apply latched_Handler.
    cbn [final w mem]. unfold http.Redirect. rewrite HM. reflexivity.
Qed.

Lemma content_type_by_extension_witness :
  Header (w (final (serve sample_env (Handler [] sample_heap)
                      (GET "/api/docs/doc.json")))) !! "Content-Type" =
  Some "application/json; charset=utf-8".
Proof.
  apply (content_type_by_extension sample_env (Handler [] sample_heap)
           (GET "/api/docs/doc.json") "/api/docs/doc.json" "/api/docs/"
           "doc.json" eq_refl eq_refl).
  reflexivity.
Defined.

(** C6 as stated fails on the document-fetch failure response: its content
    type is not the one the table gives for [.json]. *)
Lemma fetch_failure_content_type :
  content_type_of (filepath.Ext "doc.json") =
    Some "application/json; charset=utf-8" /\
  Header (w (final (serve empty_registry_env (Handler [] sample_heap)
                      (GET "/api/docs/doc.json")))) !! "Content-Type" <>
  content_type_of (filepath.Ext "doc.json").
Proof. split; [reflexivity|]. vm_compute. discriminate. Qed.

(** C7 (as the code has it): a GET request whose relative path is empty is
    answered with status 301, and the Location is made from the prefix that
    the dispatcher's asset handler holds once the request has passed the
    latch, followed by [index.html]: the request's own prefix when the
    dispatcher's latch has not run before, otherwise whatever the [Prefix]
    field of the asset handler holds then.  Of the Configuration the
    response uses the asset-handler reference alone: dispatchers that agree
    on the reference, the latch and the asset handlers answer alike,
    whatever their other options. *)
Theorem redirect_to_latched_prefix (env : Env) (m : Memory) (r : Request)
    (full prefix : string) :
  Method r = "GET" ->
  Regexp.FindStringSubmatch re (RequestURI r) = [full; prefix; ""] ->
  (exists s,
     serve env m r = Ok tt s /\
     Code (w s) = Some 301 /\
     Header (w s) !! "Location" =
       Some (redirect_target env r
               ((if once m then Prefix (handlers m (asset_handler m))
                 else prefix) +:+ "index.html"))) /\
  (forall m',
     once m' = once m -> handlers m' = handlers m ->
     Config_Handler (config m') = Config_Handler (config m) ->
     w (final (serve env m' r)) = w (final (serve env m r))).
Proof.
  intros HM Hre. split.
  - rewrite (serve_GET env m r full prefix _ HM Hre).
    rewrite (dispatch_empty env _ _ (asset_handler m)) by apply latched_Handler.
    eexists. split; [reflexivity|]. cbn [w mem].
    rewrite latched_Prefix. unfold http.Redirect. rewrite HM.
    split; reflexivity.
  - intros m' Ho Hh Hc.
    assert (Ha : asset_handler m' = asset_handler m).
    { unfold asset_handler. rewrite Hc. reflexivity. }
    rewrite !(serve_GET env _ r full prefix _ HM Hre).
    rewrite (dispatch_empty env r (mkState (latched m' prefix) _ _)
               (asset_handler m') (latched_Handler m' prefix)).
    rewrite (dispatch_empty env r (mkState (latched m prefix) _ _)
               (asset_handler m) (latched_Handler m prefix)).
    cbn [final w mem]. rewrite !latched_Prefix, Ho, Hh, Ha. reflexivity.
Qed.

Lemma redirect_to_latched_prefix_witness :
  exists s,
    serve sample_env (Handler [] sample_heap) (GET "/api/docs/") = Ok tt s /\
    Code (w s) = Some 301 /\
    Header (w s) !! "Location" = Some "/api/docs/index.html".
Proof.
  apply (redirect_to_latched_prefix sample_env (Handler [] sample_heap)
           (GET "/api/docs/") "/api/docs/" "/api/docs/" eq_refl eq_refl).
Defined.

(** C7 as stated fails: once a request under [/a/] has latched, a request
    for [/b/] is redirected to [/a/index.html], not to its own prefix
    followed by [index.html]. *)
Lemma redirect_not_to_own_prefix :
  Regexp.FindStringSubmatch re (RequestURI (GET "/b/")) = ["/b/"; "/b/"; ""] /\
  Header (w (final (serve sample_env
                      (mem (final (serve sample_env (Handler [] sample_heap)
                                     (GET "/a/index.html"))))
                      (GET "/b/")))) !! "Location" =
    Some "/a/index.html" /\
  Header (w (final (serve sample_env
                      (mem (final (serve sample_env (Handler [] sample_heap)
                                     (GET "/a/index.html"))))
                      (GET "/b/")))) !! "Location" <>
    Some (redirect_target sample_env (GET "/b/") ("/b/" +:+ "index.html")).
Proof.
  split; [reflexivity|]. split; [reflexivity|].
  vm_compute. discriminate.
Qed.

(** C9: for a GET request that resolves to [index.html] or to [doc.json],
    serving it a second time, from the memory the first time left and with
    the same collaborators, writes the same response, byte for byte, and
    leaves the memory as the first time did. *)
Theorem same_request_same_response (env : Env) (m : Memory) (r : Request)
    (full prefix path : string) :
  Method r = "GET" ->
  Regexp.FindStringSubmatch re (RequestURI r) = [full; prefix; path] ->
  path = "index.html" \/ path = "doc.json" ->
  Body (w (final (serve env (mem (final (serve env m r))) r))) =
    Body (w (final (serve env m r))) /\
  w (final (serve env (mem (final (serve env m r))) r)) =
    w (final (serve env m r)) /\
  mem (final (serve env (mem (final (serve env m r))) r)) =
    mem (final (serve env m r)).
Proof.
  intros HM Hre Hpath.
  assert (Hm : mem (final (serve env m r)) = latched m prefix).
  { rewrite serve_mem. unfold latch_prefix. rewrite HM, Hre. reflexivity. }
  rewrite Hm.
  rewrite !(serve_GET env _ r full prefix path HM Hre).
  rewrite latched_idem, latched_accesses_none.
  destruct Hpath as [-> | ->].
  - rewrite !dispatch_index. cbn [final w mem]. auto.
  - rewrite !dispatch_doc. cbn [final w mem]. auto.
Qed.

Lemma same_request_same_response_witness :
  Body (w (final (serve sample_env
                    (mem (final (serve sample_env (Handler [] sample_heap)
                                   (GET "/api/docs/index.html"))))
                    (GET "/api/docs/index.html")))) =
  Body (w (final (serve sample_env (Handler [] sample_heap)
                    (GET "/api/docs/index.html")))).
Proof.
  apply (same_request_same_response sample_env (Handler [] sample_heap)
           (GET "/api/docs/index.html") "/api/docs/index.html" "/api/docs/"
           "index.html" eq_refl eq_refl).
  left. reflexivity.
Defined.

(** ** The configuration builder *)

(** The body of [newConfig] after the loop. *)
Lemma newConfig_app (fns : list (Config -> Config)) (fn : Config -> Config) :
  newConfig (fns ++ [fn]) =
  let c := fn (fold_left (fun c fn => fn c) fns (newConfig [])) in
  if String.eqb (InstanceName c) "" then set_InstanceName swag_Name c else c.
Proof. unfold newConfig. rewrite fold_left_app. reflexivity. Qed.

Lemma configFn_agree (o : setting) (f : field) (c : Config) :
  field_of o <> f -> agree f (configFn o c) c.
Proof. destruct o, f; cbn; intros H; try reflexivity; contradiction. Qed.

Lemma agree_trans (f : field) (c1 c2 c3 : Config) :
  agree f c1 c2 -> agree f c2 c3 -> agree f c1 c3.
Proof. destruct f; cbn; congruence. Qed.

Lemma fold_settings_agree (f : field) (os : list setting) :
  Forall (fun o => field_of o <> f) os ->
  forall c,
    agree f (fold_left (fun c fn => fn c) (map configFn os) c) c.
Proof.
  induction 1 as [|o os Ho _ IH]; intros c; cbn [map fold_left].
  - destruct f; reflexivity.
  - eapply agree_trans; [apply IH|]. apply configFn_agree, Ho.
Qed.

(** X1: whatever options are given, the built configuration has a non-empty
    instance name. *)
Theorem newConfig_InstanceName_nonempty (configFns : list (Config -> Config)) :
  InstanceName (newConfig configFns) <> "".
Proof.
  unfold newConfig.
  destruct (String.eqb_spec
              (InstanceName (fold_left (fun c fn => fn c) configFns
                 (mkConfig "doc.json" "list" "swagger-ui" "swagger" "" "" []
                    ∅ true false None))) "") as [E|N].
  - cbn. discriminate.
  - exact N.
Qed.

(** X2: a field that no option of the call assigns keeps its default. *)
Theorem newConfig_keeps_default (f : field) (os : list setting) :
  Forall (fun o => field_of o <> f) os ->
  agree f (newConfig (map configFn os)) (newConfig []).
Proof.
  intros Hos. pose proof (fold_settings_agree f os Hos (newConfig [])) as H.
  unfold newConfig at 1.
  change (mkConfig "doc.json" "list" "swagger-ui" "swagger" "" "" [] ∅ true
            false None) with (newConfig []).
  set (c := fold_left (fun c fn => fn c) (map configFn os) (newConfig [])) in *.
  destruct (String.eqb_spec (InstanceName c) "") as [E|N]; [|exact H].
  destruct f; cbn in H |- *; try exact H.
  rewrite E in H. discriminate H.
Qed.

Lemma newConfig_keeps_default_witness :
  Forall (fun o => field_of o <> FURL)
         [WithDocExpansion "full"; WithDeepLinking false] /\
  URL (newConfig [Opt.DocExpansion "full"; Opt.DeepLinking false]) = "doc.json".
Proof.
  assert (H : Forall (fun o => field_of o <> FURL)
                [WithDocExpansion "full"; WithDeepLinking false]).
  { repeat constructor; discriminate. }
  split; [exact H|].
  exact (newConfig_keeps_default FURL
           [WithDocExpansion "full"; WithDeepLinking false] H).
Defined.

(** X3: of two options on the same field, one straight after the other,
    the later one alone counts. *)
Theorem newConfig_later_setting_wins (pre post : list (Config -> Config))
    (o1 o2 : setting) :
  field_of o1 = field_of o2 ->
  newConfig (pre ++ [configFn o1; configFn o2] ++ post) =
  newConfig (pre ++ [configFn o2] ++ post).
Proof.
  intros Hf. unfold newConfig. rewrite !fold_left_app. cbn [fold_left].
  set (c := fold_left (fun c fn => fn c) pre _).
  assert (E : configFn o2 (configFn o1 c) = configFn o2 c).
  { destruct o1, o2; try discriminate Hf; reflexivity. }
  rewrite E. reflexivity.
Qed.

Lemma newConfig_later_setting_wins_witness :
  newConfig ([] ++ [Opt.URL "a.json"; Opt.URL "b.json"] ++ []) =
  newConfig ([] ++ [Opt.URL "b.json"] ++ []).
Proof.
  exact (newConfig_later_setting_wins [] [] (WithURL "a.json")
           (WithURL "b.json") eq_refl).
Defined.

(** X4: two neighbouring options on different fields can be swapped. *)
Theorem newConfig_settings_commute (pre post : list (Config -> Config))
    (o1 o2 : setting) :
  field_of o1 <> field_of o2 ->
  newConfig (pre ++ [configFn o1; configFn o2] ++ post) =
  newConfig (pre ++ [configFn o2; configFn o1] ++ post).
Proof.
  intros Hf. unfold newConfig. rewrite !fold_left_app. cbn [fold_left].
  set (c := fold_left (fun c fn => fn c) pre _).
  assert (E : configFn o2 (configFn o1 c) = configFn o1 (configFn o2 c)).
  { destruct o1, o2; try (exfalso; apply Hf; reflexivity); reflexivity. }
  rewrite E. reflexivity.
Qed.

Lemma newConfig_settings_commute_witness :
  newConfig ([] ++ [Opt.URL "a.json"; Opt.DomID "ui"] ++ []) =
  newConfig ([] ++ [Opt.DomID "ui"; Opt.URL "a.json"] ++ []).
Proof.
  apply (newConfig_settings_commute [] [] (WithURL "a.json") (WithDomID "ui")).
  discriminate.
Defined.

(** X5: when the instance-name option comes last, the name is the one given,
    and [swag.Name] when the one given is empty. *)
Theorem newConfig_InstanceName_fallback (configFns : list (Config -> Config))
    (name : string) :
  InstanceName (newConfig (configFns ++ [Opt.InstanceName name])) =
  if String.eqb name "" then swag_Name else name.
Proof.
  rewrite newConfig_app. cbv zeta.
  set (c := fold_left (fun c fn => fn c) configFns (newConfig [])).
  change (InstanceName (Opt.InstanceName name c)) with name.
  destruct (String.eqb name ""); reflexivity.
Qed.

(** ** What a match looks like *)

Section StarInversion.

Context {T : Type}.

(** When the star fails, the continuation refused every run it could take. *)
Lemma star_none_inv (cc : Regexp.class) (s : string)
    (k : string -> string -> option T) :
  Regexp.star cc s k = None ->
  forall a b, s = a +:+ b -> all_in cc a = true -> k a b = None.
Proof.
  revert k. induction s as [|c s IH]; intros k Hstar a b E Ha.
  - destruct a; [|discriminate E]. rewrite append_nil_l in E. subst b.
    exact Hstar.
  - cbn [Regexp.star] in Hstar.
    destruct a as [|x a].
    + rewrite append_nil_l in E. subst b.
      destruct (Regexp.class_matches cc c); [|exact Hstar].
      destruct (Regexp.star cc s _); [discriminate Hstar|exact Hstar].
    + rewrite append_cons in E. injection E as <- E.
      cbn [all_in] in Ha. apply andb_true_iff in Ha as [Hc Ha].
      rewrite Hc in Hstar.
      destruct (Regexp.star cc s (fun t rest => k (String c t) rest)) eqn:Hs;
        [discriminate Hstar|].
      exact (IH _ Hs a b E Ha).
Qed.

(** When the star succeeds, it took a run of the class on which the
    continuation succeeded, and the continuation refused every longer
    run. *)
Lemma star_some_inv (cc : Regexp.class) (s : string)
    (k : string -> string -> option T) (x : T) :
  Regexp.star cc s k = Some x ->
  exists a b,
    s = a +:+ b /\ all_in cc a = true /\ k a b = Some x /\
    forall a' b', s = a' +:+ b' -> all_in cc a' = true ->
                  String.length a < String.length a' -> k a' b' = None.
Proof.
  revert k. induction s as [|c s IH]; intros k Hstar.
  - cbn [Regexp.star] in Hstar. exists "", "".
    repeat split; auto.
    intros a' b' E _ Hlen. destruct a'; [cbn in Hlen; lia|discriminate E].
  - cbn [Regexp.star] in Hstar.
    destruct (Regexp.class_matches cc c) eqn:Hc.
    + destruct (Regexp.star cc s (fun t rest => k (String c t) rest)) as [y|]
        eqn:Hs.
      * injection Hstar as ->.
        destruct (IH _ Hs) as (a & b & E & Ha & Hk & Hlong).
        exists (String c a), b. rewrite append_cons, <- E. cbn [all_in].
        rewrite Hc, Ha. repeat split; auto.
        intros a' b' E' Ha' Hlen. destruct a' as [|x' a'].
        { cbn in Hlen. lia. }
        rewrite append_cons in E'. injection E' as <- E'.
        cbn [all_in] in Ha'. apply andb_true_iff in Ha' as [_ Ha'].
        apply (Hlong a' b' E' Ha'). cbn in Hlen. lia.
      * exists "", (String c s). repeat split; auto.
        intros a' b' E' Ha' Hlen. destruct a' as [|x' a'].
        { cbn in Hlen. lia. }
        rewrite append_cons in E'. injection E' as <- E'.
        cbn [all_in] in Ha'. apply andb_true_iff in Ha' as [_ Ha'].
        exact (star_none_inv cc s _ Hs a' b' E' Ha').
    + exists "", (String c s). repeat split; auto.
      intros a' b' E' Ha' Hlen. destruct a' as [|x' a'].
      { cbn in Hlen. lia. }
      rewrite append_cons in E'. injection E' as <- E'.
      cbn [all_in] in Ha'. rewrite Hc in Ha'. discriminate Ha'.
Qed.

End StarInversion.

Lemma search_re_anchored (s : string) :
  Regexp.search re 0 s =
  Regexp.backtrack (Regexp.Capture 0 re) 0 s ∅ (fun _ _ c => Some c).
Proof.
  assert (Hs : forall s pos, Regexp.search re (S pos) s = None).
  { clear s. induction s as [|c s IH]; intros pos; cbn; [reflexivity|]. apply IH. }
  destruct s as [|c s]; cbn [Regexp.search];
    destruct (Regexp.backtrack (Regexp.Capture 0 re) 0 _ ∅ _); auto.
Qed.

Lemma all_in_tail_class_any (t : string) :
  all_in (Regexp.AnyOf ["?"; "|"; "."]%char) t = true ->
  all_in Regexp.AnyCharNotNL t = true.
Proof.
  induction t as [|c t IH]; [reflexivity|]. cbn [all_in].
  intros H. apply andb_true_iff in H as [Hc Ht]. rewrite (IH Ht), andb_true_r.
  cbn [Regexp.class_matches Regexp.mem existsb] in Hc |- *.
  destruct (Ascii.eqb_spec c "?") as [->|_]; [reflexivity|].
  destruct (Ascii.eqb_spec c "|") as [->|_]; [reflexivity|].
  destruct (Ascii.eqb_spec c ".") as [->|_]; [reflexivity|].
  discriminate Hc.
Qed.

Lemma length_append (a b : string) :
  String.length (a +:+ b) = String.length a + String.length b.
Proof.
  induction a as [|x a IH]; [reflexivity|].
  rewrite append_cons. cbn [String.length]. rewrite IH. reflexivity.
Qed.

(** The shape of a match. *)
Lemma FindStringSubmatch_re_inv (uri full prefix path : string) :
  Regexp.FindStringSubmatch re uri = [full; prefix; path] ->
  full = uri /\
  exists d t,
    prefix = d +:+ "/" /\
    all_in Regexp.AnyCharNotNL d = true /\
    uri = prefix +:+ path +:+ t /\
    all_in (Regexp.AnyOf ["?"; "|"; "."]%char) t = true /\
    (path <> "" -> t = "") /\
    (forall rest, path <> String "?" rest).
Proof.
  unfold Regexp.FindStringSubmatch. rewrite search_re_anchored.
  destruct (Regexp.backtrack _ 0 uri ∅ _) as [c|] eqn:Hb; [|discriminate].
  change (Regexp.NumSubexp re) with 2. cbn [seq map].
  intros Hg. injection Hg as H0 H1 H2.
  cbn [Regexp.backtrack re Nat.eqb] in Hb.
  apply star_some_inv in Hb as (d & b & Euri & Hd & Hk & _).
  destruct b as [|c1 b1]; [discriminate Hk|].
  destruct (Ascii.eqb_spec "/" c1) as [<-|]; [|discriminate Hk].
  match type of Hk with
  | match ?inner with _ => _ end = _ => destruct inner as [c0|] eqn:Hq
  end.
  - injection Hk as ->.
    destruct b1 as [|c2 b2]; [discriminate Hq|].
    destruct (Regexp.class_matches (Regexp.NoneOf ["?"%char]) c2) eqn:Hc2;
      [|discriminate Hq].
    apply star_some_inv in Hq as (a2 & b3 & Eb2 & Ha2 & Hq & Hlong).
    pose proof Hq as Hq'.
    apply star_some_inv in Hq' as (a3 & b4 & Eb3 & Ha3 & Hend & _).
    destruct b4; [|discriminate Hend]. injection Hend as <-.
    rewrite append_nil_r in Eb3. subst b3.
    rewrite lookup_insert_eq in H0.
    rewrite (lookup_insert_ne _ 0 1), (lookup_insert_ne _ 2 1),
      lookup_insert_eq in H1 by discriminate.
    rewrite (lookup_insert_ne _ 0 2), lookup_insert_eq in H2 by discriminate.
    cbn [default from_option id] in H0, H1, H2. subst full prefix path.
    rewrite !append_nil_l, !append_nil_r, !append_cons, !append_nil_l.
    assert (Et : a3 = "").
    { destruct a3 as [|x a3]; [reflexivity|exfalso].
      assert (Hn := Hlong (a2 +:+ String x a3) "").
      cbn [Regexp.star] in Hn. rewrite append_nil_r in Hn.
      specialize (Hn Eb2).
      rewrite all_in_append, Ha2, (all_in_tail_class_any _ Ha3) in Hn.
      rewrite length_append in Hn. cbn [String.length] in Hn.
      assert (Hlt : String.length a2 < String.length a2 + S (String.length a3))
        by lia.
      specialize (Hn eq_refl Hlt).
      discriminate Hn. }
    subst a3. rewrite append_nil_r in Eb2. subst b2.
    split.
    + rewrite Euri, append_nil_r. rewrite append_assoc. reflexivity.
    + exists d, "". repeat split; auto.
      * rewrite Euri, append_nil_r, append_assoc. reflexivity.
      * intros rest E. injection E as -> _. discriminate Hc2.
  - apply star_some_inv in Hk as (a3 & b4 & Eb1 & Ha3 & Hend & _).
    destruct b4; [|discriminate Hend]. injection Hend as <-.
    rewrite append_nil_r in Eb1. subst b1.
    rewrite lookup_insert_eq in H0.
    rewrite (lookup_insert_ne _ 0 1), lookup_insert_eq in H1 by discriminate.
    rewrite !lookup_insert_ne, lookup_empty in H2 by discriminate.
    cbn [default from_option id] in H0, H1, H2. subst full prefix path.
    rewrite !append_nil_l, !append_nil_r.
    split.
    + rewrite Euri, append_assoc. reflexivity.
    + exists d, a3. repeat split; auto.
      * rewrite Euri, append_assoc. reflexivity.
      * intros N. contradiction.
Qed.

(** X7: whenever the pattern matches, the match is the whole URI, the
    prefix is a newline-free text ending in a slash, and the URI is the
    prefix, the relative path and a tail of question marks, bars and dots;
    the tail is empty unless the relative path is, so nothing is ever cut
    off a non-empty relative path; and the relative path does not start
    with a question mark. *)
Theorem resolver_match_shape (uri full prefix path : string) :
  Regexp.FindStringSubmatch re uri = [full; prefix; path] ->
  full = uri /\
  exists d t,
    prefix = d +:+ "/" /\
    all_in Regexp.AnyCharNotNL d = true /\
    uri = prefix +:+ path +:+ t /\
    all_in (Regexp.AnyOf ["?"; "|"; "."]%char) t = true /\
    (path <> "" -> t = "") /\
    (forall rest, path <> String "?" rest).
Proof. apply FindStringSubmatch_re_inv. Qed.

Lemma resolver_match_shape_witness :
  Regexp.FindStringSubmatch re "/api/docs/?" = ["/api/docs/?"; "/api/docs/"; ""] /\
  exists d t,
    "/api/docs/" = d +:+ "/" /\
    all_in Regexp.AnyCharNotNL d = true /\
    "/api/docs/?" = "/api/docs/" +:+ "" +:+ t /\
    all_in (Regexp.AnyOf ["?"; "|"; "."]%char) t = true /\
    ("" <> "" -> t = "") /\
    (forall rest, "" <> String "?" rest).
Proof.
  split; [reflexivity|].
  apply (resolver_match_shape "/api/docs/?" "/api/docs/?" "/api/docs/" "").
  reflexivity.
Defined.

(** X6: for a URI [d/seg] in which [d] holds no newline and [seg] holds no
    slash, is empty or starts with a character other than the question
    mark, and holds no newline after its first character, the prefix is
    [d/] and the relative path is [seg]. *)
Theorem resolver_plain_segment (d seg : string) :
  all_in Regexp.AnyCharNotNL d = true ->
  has_char "/" seg = false ->
  plain_segment seg = true ->
  nth_error (Regexp.FindStringSubmatch re (d +:+ String "/" seg)) 1 =
    Some (d +:+ "/") /\
  nth_error (Regexp.FindStringSubmatch re (d +:+ String "/" seg)) 2 = Some seg.
Proof.
  intros Hd Hno Hseg. rewrite (FindStringSubmatch_segment d seg Hd Hno Hseg).
  split; reflexivity.
Qed.

Lemma resolver_plain_segment_witness :
  nth_error (Regexp.FindStringSubmatch re "/api/docs/swagger-ui.css") 1 =
    Some "/api/docs/" /\
  nth_error (Regexp.FindStringSubmatch re "/api/docs/swagger-ui.css") 2 =
    Some "swagger-ui.css".
Proof.
  apply (resolver_plain_segment "/api/docs" "swagger-ui.css"); reflexivity.
Defined.

(** ** The extension of a path *)

Lemma get_append_r (a b : string) (i : nat) :
  String.get (String.length a + i) (a +:+ b) = String.get i b.
Proof.
  induction a as [|x a IH]; [reflexivity|].
  rewrite append_cons. cbn [String.length Nat.add String.get]. exact IH.
Qed.

Lemma substring_whole (b : string) : substring 0 (String.length b) b = b.
Proof.
  induction b as [|x b IH]; [reflexivity|].
  cbn [String.length substring]. rewrite IH. reflexivity.
Qed.

Lemma substring_append_r (a b : string) :
  substring (String.length a) (String.length b) (a +:+ b) = b.
Proof.
  induction a as [|x a IH].
  - rewrite append_nil_l. apply substring_whole.
  - rewrite append_cons. cbn [String.length substring]. exact IH.
Qed.

Lemma get_without_char (c : ascii) (e : string) (i : nat) :
  has_char c e = false -> i < String.length e ->
  exists x, String.get i e = Some x /\ Ascii.eqb c x = false.
Proof.
  revert i. induction e as [|y e IH]; intros i Hno Hi.
  - cbn in Hi. lia.
  - cbn [has_char] in Hno. apply orb_false_iff in Hno as [Hy Hno].
    destruct i as [|i]; cbn [String.get].
    + exists y. split; [reflexivity|exact Hy].
    + apply IH; [exact Hno|]. cbn [String.length] in Hi. lia.
Qed.

(** The extension starts at the last dot of the last element. *)
Lemma Ext_last_dot (base e : string) :
  has_char "." e = false -> has_char "/" e = false ->
  filepath.Ext (base +:+ String "." e) = String "." e.
Proof.
  intros Hdot Hsl. unfold filepath.Ext.
  set (path := base +:+ String "." e).
  assert (Hlen : String.length path = S (String.length base + String.length e)).
  { unfold path. rewrite length_append. cbn [String.length]. lia. }
  assert (H : forall n, n <= String.length e ->
                filepath.Ext_loop path (S (String.length base + n)) =
                String "." e).
  { induction n as [|n IH]; intros Hn; cbn [filepath.Ext_loop].
    - unfold path at 1. rewrite get_append_r. cbn [String.get].
      change (filepath.IsPathSeparator ".") with false.
      change (Ascii.eqb "." ".") with true. cbv iota.
      rewrite Hlen, Nat.add_0_r.
      replace (S (String.length base + String.length e) - String.length base)
        with (String.length (String "." e)) by (cbn [String.length]; lia).
      unfold path. apply substring_append_r.
    - unfold path at 1. rewrite get_append_r. cbn [String.get].
      destruct (get_without_char "/" e n Hsl) as (x & Hx & Hxs); [lia|].
      destruct (get_without_char "." e n Hdot) as (x' & Hx' & Hxd); [lia|].
      rewrite Hx in Hx'. injection Hx' as <-. rewrite Hx.
      unfold filepath.IsPathSeparator. rewrite Ascii.eqb_sym, Hxs.
      rewrite Ascii.eqb_sym, Hxd.
      replace (String.length base + S n) with (S (String.length base + n))
        by lia.
      apply IH. lia. }
  rewrite Hlen. apply H. lia.
Qed.

(** The extensions of the table have one dot, in front, and no slash. *)
Lemma content_type_of_Some (ext ct : string) :
  content_type_of ext = Some ct ->
  exists e, ext = String "." e /\ has_char "." e = false /\
            has_char "/" e = false.
Proof.
  unfold content_type_of.
  destruct (String.eqb_spec ext ".html") as [->|_];
    [intros _; eexists; repeat split; reflexivity|].
  destruct (String.eqb_spec ext ".css") as [->|_];
    [intros _; eexists; repeat split; reflexivity|].
  destruct (String.eqb_spec ext ".js") as [->|_];
    [intros _; eexists; repeat split; reflexivity|].
  destruct (String.eqb_spec ext ".png") as [->|_];
    [intros _; eexists; repeat split; reflexivity|].
  destruct (String.eqb_spec ext ".json") as [->|_];
    [intros _; eexists; repeat split; reflexivity|].
  discriminate.
Qed.

(** ** The branches of the dispatcher *)

Lemma latched_asset_handler (m : Memory) (p : string) :
  handlers (latched m p) (asset_handler m) =
  mkWebdavHandler (if once m then Prefix (handlers m (asset_handler m)) else p).
Proof.
  rewrite <- latched_Prefix.
  destruct (handlers (latched m p) (asset_handler m)). reflexivity.
Qed.

Lemma latched_InstanceName (m : Memory) (p : string) :
  InstanceName (config (latched m p)) = InstanceName (config m).
Proof.
  unfold latched. destruct (Config_Handler (config m)); destruct (once m);
    reflexivity.
Qed.

Lemma serve_delegated (env : Env) (m : Memory) (r : Request)
    (full prefix path : string) :
  Method r = "GET" ->
  Regexp.FindStringSubmatch re (RequestURI r) = [full; prefix; path] ->
  path <> "index.html" -> path <> "doc.json" -> path <> "" ->
  serve env m r =
  Ok tt
    (mkState (latched m prefix)
       (webdav_ServeHTTP env (asset_handler m)
          (mkWebdavHandler
             (if once m then Prefix (handlers m (asset_handler m)) else prefix))
          (classify (filepath.Ext path) http.NewRecorder) r)
       (latch_accesses m prefix ++
        [Served (asset_handler m)
           (mkWebdavHandler
              (if once m then Prefix (handlers m (asset_handler m))
               else prefix))])).
Proof.
  intros HM Hre N1 N2 N3. rewrite (serve_GET env m r full prefix path HM Hre).
  rewrite (dispatch_other env r path _ (asset_handler m) N1 N2 N3)
    by apply latched_Handler.
  cbn [mem w trace]. rewrite latched_asset_handler. reflexivity.
Qed.

(** X10: a GET request whose relative path is neither [index.html], nor
    [doc.json], nor empty is handed to the asset handler, once: the handler
    is called in the state the latch leaves it in, on a writer that holds
    only the content type of the extension, and its response is the
    response. *)
Theorem other_paths_delegated (env : Env) (m : Memory) (r : Request)
    (full prefix path : string) :
  Method r = "GET" ->
  Regexp.FindStringSubmatch re (RequestURI r) = [full; prefix; path] ->
  path <> "index.html" -> path <> "doc.json" -> path <> "" ->
  w (final (serve env m r)) =
    webdav_ServeHTTP env (asset_handler m)
      (mkWebdavHandler
         (if once m then Prefix (handlers m (asset_handler m)) else prefix))
      (classify (filepath.Ext path) http.NewRecorder) r /\
  trace (final (serve env m r)) =
    (latch_accesses m prefix ++
     [Served (asset_handler m)
        (mkWebdavHandler
           (if once m then Prefix (handlers m (asset_handler m))
            else prefix))])%list.
Proof.
  intros HM Hre N1 N2 N3.
  rewrite (serve_delegated env m r full prefix path HM Hre N1 N2 N3).
  split; reflexivity.
Qed.

Lemma other_paths_delegated_witness :
  Body (w (final (serve sample_env (Handler [] sample_heap)
                    (GET "/api/docs/swagger-ui-bundle.js")))) =
  "asset under /api/docs/".
Proof.
  destruct (other_paths_delegated sample_env (Handler [] sample_heap)
              (GET "/api/docs/swagger-ui-bundle.js")
              "/api/docs/swagger-ui-bundle.js" "/api/docs/"
              "swagger-ui-bundle.js" eq_refl eq_refl)
    as [Hw _]; try discriminate.
  rewrite Hw. reflexivity.
Defined.

(** X9: a GET request for [d/base.ext], where [.ext] is an extension of the
    table and the name is neither [index.html] nor [doc.json], reaches the
    asset handler with the content type of the table already set, whatever
    dots the base name holds. *)
Theorem static_asset_content_type (env : Env) (m : Memory)
    (d base ext ct : string) :
  all_in Regexp.AnyCharNotNL d = true ->
  has_char "/" base = false ->
  plain_segment (base +:+ ext) = true ->
  content_type_of ext = Some ct ->
  base +:+ ext <> "index.html" ->
  base +:+ ext <> "doc.json" ->
  w (final (serve env m (GET (d +:+ String "/" (base +:+ ext))))) =
  webdav_ServeHTTP env (asset_handler m)
    (mkWebdavHandler
       (if once m then Prefix (handlers m (asset_handler m)) else d +:+ "/"))
    (http.Header_Set "Content-Type" ct http.NewRecorder)
    (GET (d +:+ String "/" (base +:+ ext))).
Proof.
  intros Hd Hbase Hseg Hct N1 N2.
  destruct (content_type_of_Some ext ct Hct) as (e & -> & Hdot & Hsl).
  assert (Hno : has_char "/" (base +:+ String "." e) = false).
  { rewrite has_char_append, Hbase. cbn [has_char]. rewrite Hsl. reflexivity. }
  assert (N3 : base +:+ String "." e <> "").
  { destruct base; [rewrite append_nil_l|rewrite append_cons]; discriminate. }
  rewrite (serve_delegated env m (GET _) _ _ _ eq_refl
             (FindStringSubmatch_segment d _ Hd Hno Hseg) N1 N2 N3).
  cbn [final w]. rewrite (Ext_last_dot base e Hdot Hsl).
  unfold classify. rewrite Hct. reflexivity.
Qed.

Lemma static_asset_content_type_witness :
  w (final (serve sample_env (Handler [] sample_heap)
              (GET "/api/docs/swagger-ui.min.css"))) =
  webdav_ServeHTTP sample_env swaggerFiles_Handler
    (mkWebdavHandler "/api/docs/")
    (http.Header_Set "Content-Type" "text/css; charset=utf-8" http.NewRecorder)
    (GET "/api/docs/swagger-ui.min.css").
Proof.
  apply (static_asset_content_type sample_env (Handler [] sample_heap)
           "/api/docs" "swagger-ui.min" ".css" "text/css; charset=utf-8");
    try reflexivity; discriminate.
Defined.

(** X11: the entry page.  A GET request whose relative path is [index.html]
    returns with the rendering of the configuration as body, under status
    200 and the HTML content type; the asset handler is not called and the
    prefix is not read.  When the template renders nothing, nothing is
    written. *)
Theorem entry_page_rendered (env : Env) (m : Memory) (r : Request)
    (full prefix : string) :
  Method r = "GET" ->
  Regexp.FindStringSubmatch re (RequestURI r) = [full; prefix; "index.html"] ->
  exists s,
    serve env m r = Ok tt s /\
    Body (w s) = index_Execute env (config (mem s)) /\
    Code (w s) =
      (if String.eqb (index_Execute env (config (mem s))) "" then None
       else Some 200) /\
    Header (w s) !! "Content-Type" = Some "text/html; charset=utf-8" /\
    trace s = latch_accesses m prefix.
Proof.
  intros HM Hre. rewrite (serve_GET env m r full prefix _ HM Hre).
  rewrite dispatch_index. eexists. split; [reflexivity|]. cbn [w mem trace].
  destruct (String.eqb_spec (index_Execute env (config (latched m prefix))) "")
    as [E|N].
  - rewrite E. repeat split.
  - repeat split.
Qed.

Lemma entry_page_rendered_witness :
  exists s,
    serve sample_env (Handler [Opt.DocExpansion "full"] sample_heap)
      (GET "/api/docs/index.html") = Ok tt s /\
    Body (w s) = "<html>doc.json full</html>".
Proof.
  destruct (entry_page_rendered sample_env
              (Handler [Opt.DocExpansion "full"] sample_heap)
              (GET "/api/docs/index.html") "/api/docs/index.html" "/api/docs/"
              eq_refl eq_refl) as (s & Hs & Hb & _).
  exists s. split; [exact Hs|]. rewrite Hb.
  injection Hs as <-. reflexivity.
Defined.

(** X14: the response to a request for [doc.json] depends on the
    configuration through the instance name alone, and not on the state of
    the latch or of the asset handlers. *)
Theorem doc_json_by_instance_name (env : Env) (m m' : Memory) (r : Request)
    (full prefix : string) :
  Method r = "GET" ->
  Regexp.FindStringSubmatch re (RequestURI r) = [full; prefix; "doc.json"] ->
  InstanceName (config m) = InstanceName (config m') ->
  w (final (serve env m r)) = w (final (serve env m' r)).
Proof.
  intros HM Hre Hn. rewrite !(serve_GET env _ r full prefix _ HM Hre).
  rewrite !dispatch_doc. cbn [final w mem].
  rewrite !latched_InstanceName, Hn. reflexivity.
Qed.

Lemma doc_json_by_instance_name_witness :
  w (final (serve sample_env (Handler [] sample_heap) (GET "/a/doc.json"))) =
  w (final (serve sample_env
              (Handler [Opt.URL "x.json"; Opt.DeepLinking false]
                 (fun _ => mkWebdavHandler "/elsewhere/"))
              (GET "/a/doc.json"))).
Proof.
  apply (doc_json_by_instance_name sample_env _ _ (GET "/a/doc.json")
           "/a/doc.json" "/a/"); reflexivity.
Defined.

(** X8: the handler panics on a GET request whose URI the pattern does not
    match and on no other request, and then with the index out of range at
    [matches[2]], the memory and the writer untouched; the pointer in
    [config.Handler] is never dereferenced while nil. *)
Theorem panics_only_when_unmatched (env : Env) (m : Memory) (r : Request) :
  (exists s, serve env m r = Ok tt s /\
             (Method r = "GET" ->
              Regexp.FindStringSubmatch re (RequestURI r) <> [])) \/
  (Method r = "GET" /\
   Regexp.FindStringSubmatch re (RequestURI r) = [] /\
   serve env m r = Panic (IndexOutOfRange 2 0) (mkState m http.NewRecorder [])).
Proof.
  destruct (String.eqb_spec (Method r) "GET") as [HM|HM].
  - destruct (FindStringSubmatch_re_shape (RequestURI r))
      as [Hre|(full & p & path & Hre)].
    + right. split; [exact HM|]. split; [exact Hre|].
      apply serve_GET_no_match; assumption.
    + left. rewrite (serve_GET env m r full p path HM Hre).
      destruct (dispatch_effects env r path
                  (mkState (latched m p)
                     (classify (filepath.Ext path) http.NewRecorder)
                     (latch_accesses m p))
                  (asset_handler m) (latched_Handler m p))
        as (w' & tr' & -> & _).
      eexists. split; [reflexivity|]. intros _. rewrite Hre. discriminate.
  - left. rewrite (serve_not_GET env m r HM). eexists. split; [reflexivity|].
    intros E. contradiction.
Qed.

(** X12: a request writes no asset handler but the dispatcher's own: every
    other one is as before, and once the latch has run all of them are. *)
Theorem other_handlers_untouched (env : Env) (m : Memory) (r : Request) :
  (forall l, l <> asset_handler m ->
             handlers (mem (final (serve env m r))) l = handlers m l) /\
  (once m = true -> handlers (mem (final (serve env m r))) = handlers m).
Proof.
  rewrite serve_mem. destruct (latch_prefix r) as [p|]; [|split; reflexivity].
  unfold latched. split.
  - intros l Hl. destruct (once m); cbn [handlers]; [reflexivity|].
    destruct (Nat.eqb_spec l (asset_handler m)); [contradiction|reflexivity].
  - intros ->. reflexivity.
Qed.

(** X16: the latch has run after a sequence of requests exactly when it had
    run before or one of the requests was a GET request whose URI the
    pattern matches. *)
Theorem once_after_all (env : Env) (m : Memory) (rs : list Request) :
  once (after_all env m rs) =
  once m || match first_latch rs with Some _ => true | None => false end.
Proof.
  revert m. induction rs as [|r rs IH]; intros m; cbn [after_all first_latch].
  - rewrite orb_false_r. reflexivity.
  - rewrite IH, serve_mem. destruct (latch_prefix r) as [p|].
    + rewrite latched_once, orb_true_r. reflexivity.
    + reflexivity.
Qed.

(** X13: the prefix cell belongs to the asset handler, not to the
    dispatcher.  When a second dispatcher that uses the same asset handler
    latches, a dispatcher that had latched before redirects to the second
    one's prefix. *)
Theorem shared_asset_handler_prefix (env : Env) (mA mB : Memory)
    (r2 r3 : Request) (l : loc) (full2 prefix2 path2 full3 prefix3 : string) :
  once mA = true ->
  Config_Handler (config mA) = Some l ->
  asset_handler mB = l ->
  once mB = false ->
  Method r2 = "GET" ->
  Regexp.FindStringSubmatch re (RequestURI r2) = [full2; prefix2; path2] ->
  Method r3 = "GET" ->
  Regexp.FindStringSubmatch re (RequestURI r3) = [full3; prefix3; ""] ->
  Header
    (w (final
          (serve env
             (with_heap mA
                (handlers
                   (mem (final (serve env (with_heap mB (handlers mA)) r2)))))
             r3))) !! "Location" =
  Some (redirect_target env r3 (prefix2 +:+ "index.html")).
Proof.
  intros HoA HhA HlB HoB HM2 Hre2 HM3 Hre3.
  assert (Hm2 : mem (final (serve env (with_heap mB (handlers mA)) r2)) =
                latched (with_heap mB (handlers mA)) prefix2).
  { rewrite serve_mem. unfold latch_prefix. rewrite HM2, Hre2. reflexivity. }
  rewrite Hm2.
  set (h := handlers (latched (with_heap mB (handlers mA)) prefix2)).
  assert (Hp : Prefix (h l) = prefix2).
  { unfold h. replace l with (asset_handler (with_heap mB (handlers mA))).
    rewrite latched_Prefix. cbn [with_heap once]. rewrite HoB. reflexivity. }
  rewrite (serve_GET env _ r3 full3 prefix3 "" HM3 Hre3).
  rewrite (latched_fixed (with_heap mA h) l prefix3 HoA HhA).
  rewrite (dispatch_empty env r3 (mkState (with_heap mA h) _ _) l HhA).
  cbn [final w mem with_heap handlers]. rewrite Hp.
  unfold http.Redirect. rewrite HM3. reflexivity.
Qed.

Lemma shared_asset_handler_prefix_witness :
  Header
    (w (final
          (serve sample_env
             (with_heap
                (mem (final (serve sample_env (Handler [] sample_heap)
                               (GET "/a/index.html"))))
                (handlers
                   (mem (final
                           (serve sample_env
                              (with_heap (Handler [] sample_heap)
                                 (handlers
                                    (mem (final
                                            (serve sample_env
                                               (Handler [] sample_heap)
                                               (GET "/a/index.html"))))))
                              (GET "/b/index.html"))))))
             (GET "/a/")))) !! "Location" =
  Some "/b/index.html".
Proof.
  apply (shared_asset_handler_prefix sample_env
           (mem (final (serve sample_env (Handler [] sample_heap)
                          (GET "/a/index.html"))))
           (Handler [] sample_heap)
           (GET "/b/index.html") (GET "/a/") swaggerFiles_Handler
           "/b/index.html" "/b/" "index.html" "/a/" "/a/");
    reflexivity.
Defined.

(** X15: an asset handler given through the [WebdavHandler] option, last
    among the options, is the one the dispatcher keeps and latches: the
    first GET request whose URI the pattern matches overwrites its [Prefix],
    whatever it held, and the package-level handler is left alone. *)
Theorem custom_handler_prefix_overwritten (env : Env)
    (configFns : list (Config -> Config)) (l : loc)
    (heap : loc -> webdav_Handler) (r : Request) (full prefix path : string) :
  Method r = "GET" ->
  Regexp.FindStringSubmatch re (RequestURI r) = [full; prefix; path] ->
  let m := Handler (configFns ++ [Opt.WebdavHandler (Some l)]) heap in
  Config_Handler (config (mem (final (serve env m r)))) = Some l /\
  Prefix (handlers (mem (final (serve env m r))) l) = prefix /\
  (l <> swaggerFiles_Handler ->
   handlers (mem (final (serve env m r))) swaggerFiles_Handler =
   heap swaggerFiles_Handler).
Proof.
  intros HM Hre m.
  assert (Hh : Config_Handler (config m) = Some l).
  { unfold m, Handler. cbn [config]. rewrite newConfig_app. cbv zeta.
    destruct (String.eqb _ ""); reflexivity. }
  assert (Hl : asset_handler m = l).
  { unfold asset_handler. rewrite Hh. reflexivity. }
  assert (Hm : mem (final (serve env m r)) = latched m prefix).
  { rewrite serve_mem. unfold latch_prefix. rewrite HM, Hre. reflexivity. }
  rewrite Hm. split; [|split].
  - rewrite latched_Handler, Hl. reflexivity.
  - rewrite <- Hl at 1. rewrite latched_Prefix. reflexivity.
  - intros Hne. unfold latched. cbn [once m Handler handlers]. rewrite Hl.
    destruct (Nat.eqb_spec swaggerFiles_Handler l) as [E|_];
      [congruence|reflexivity].
Qed.

Lemma custom_handler_prefix_overwritten_witness :
  Prefix
    (handlers
       (mem (final (serve sample_env
                      (Handler ([] ++ [Opt.WebdavHandler (Some 7)])
                         (fun _ => mkWebdavHandler "/configured/"))
                      (GET "/api/docs/index.html")))) 7) = "/api/docs/".
Proof.
  apply (custom_handler_prefix_overwritten sample_env [] 7
           (fun _ => mkWebdavHandler "/configured/")
           (GET "/api/docs/index.html") "/api/docs/index.html" "/api/docs/"
           "index.html" eq_refl eq_refl).
Defined.

(** ** URIs the pattern refuses *)

(** With no slash in [d] or in [x], the slash of [d/x] is the only one. *)
Lemma only_slash (d x a y : string) :
  has_char "/" d = false -> has_char "/" x = false ->
  d +:+ String "/" x = a +:+ String "/" y -> a = d /\ y = x.
Proof.
  revert a. induction d as [|c d IH]; intros a Hd Hx E.
  - rewrite append_nil_l in E. destruct a as [|c' a].
    + rewrite append_nil_l in E. injection E as <-. auto.
    + rewrite append_cons in E. injection E as <- E. subst x.
      rewrite has_char_append in Hx. apply orb_false_iff in Hx as [_ Hx].
      discriminate Hx.
  - cbn [has_char] in Hd. apply orb_false_iff in Hd as [Hc Hd].
    rewrite append_cons in E. destruct a as [|c' a].
    + rewrite append_nil_l in E. injection E as -> _. discriminate Hc.
    + rewrite append_cons in E. injection E as <- E.
      destruct (IH a Hd Hx E) as [-> ->]. auto.
Qed.

Lemma query_under_single_slash_unmatched (d q : string) :
  has_char "/" d = false -> has_char "/" q = false ->
  all_in (Regexp.AnyOf ["?"; "|"; "."]%char) q = false ->
  Regexp.FindStringSubmatch re (d +:+ String "/" (String "?" q)) = [].
Proof.
  intros Hd Hq Hcls.
  destruct (FindStringSubmatch_re_shape (d +:+ String "/" (String "?" q)))
    as [E|(full & p & path & E)]; [exact E|exfalso].
  destruct (FindStringSubmatch_re_inv _ _ _ _ E)
    as (_ & d0 & t & -> & _ & Euri & Ht & Hpt & Hstart).
  rewrite append_assoc, append_cons, append_nil_l in Euri.
  assert (Hx : has_char "/" (String "?" q) = false).
  { cbn [has_char]. rewrite Hq. reflexivity. }
  destruct (only_slash d (String "?" q) d0 (path +:+ t) Hd Hx Euri) as [_ Ept].
  destruct path as [|c path].
  - rewrite append_nil_l in Ept. subst t. cbn [all_in] in Ht.
    apply andb_true_iff in Ht as [_ Ht]. congruence.
  - rewrite append_cons in Ept. injection Ept as -> _.
    exact (Hstart path eq_refl).
Qed.

(** X17: a GET request whose URI holds no slash makes the handler panic,
    before anything is written or latched. *)
Theorem slash_free_uri_panics (env : Env) (m : Memory) (uri : string) :
  has_char "/" uri = false ->
  Regexp.FindStringSubmatch re uri = [] /\
  serve env m (GET uri) =
    Panic (IndexOutOfRange 2 0) (mkState m http.NewRecorder []).
Proof.
  intros Hno. split; [apply FindStringSubmatch_no_slash, Hno|].
  apply serve_GET_no_slash; [reflexivity|exact Hno].
Qed.

Lemma slash_free_uri_panics_witness :
  has_char "/" "swagger.json" = false /\
  Regexp.FindStringSubmatch re "swagger.json" = [].
Proof.
  split; [reflexivity|].
  apply (slash_free_uri_panics sample_env (Handler [] sample_heap)
           "swagger.json").
  reflexivity.
Defined.

(** X18: a GET request for [d/?q], where the slash is the only one and the
    query [q] holds a character other than the question mark, the bar and
    the dot, makes the handler panic: a query straight after the only slash
    is not matched. *)
Theorem query_after_only_slash_panics (env : Env) (m : Memory) (d q : string) :
  has_char "/" d = false -> has_char "/" q = false ->
  all_in (Regexp.AnyOf ["?"; "|"; "."]%char) q = false ->
  serve env m (GET (d +:+ String "/" (String "?" q))) =
    Panic (IndexOutOfRange 2 0) (mkState m http.NewRecorder []).
Proof.
  intros Hd Hq Hcls. apply serve_GET_no_match; [reflexivity|].
  apply query_under_single_slash_unmatched; assumption.
Qed.

Lemma query_after_only_slash_panics_witness :
  serve sample_env (Handler [] sample_heap) (GET "/?url=petstore.json") =
  Panic (IndexOutOfRange 2 0)
        (mkState (Handler [] sample_heap) http.NewRecorder []).
Proof.
  apply (query_after_only_slash_panics sample_env (Handler [] sample_heap)
           "" "url=petstore.json"); reflexivity.
Defined.

(** ** The latch of one dispatcher among others *)

Lemma accesses_cons (o : result unit) (os : list (result unit)) :
  accesses (o :: os) = (trace (final o) ++ accesses os)%list.
Proof. reflexivity. Qed.

(** A request to a dispatcher whose latch has run shows the prefix its asset
    handler holds. *)
Lemma serve_answers_latched (env : Env) (m : Memory) (r : Request) (l : loc) :
  once m = true -> Config_Handler (config m) = Some l ->
  answers_with env l (Prefix (handlers m l)) r (serve env m r).
Proof.
  intros Ho Hh full prefix path HM Hre.
  assert (Ha : asset_handler m = l).
  { unfold asset_handler. rewrite Hh. reflexivity. }
  split.
  - intros ->. rewrite (serve_GET env m r full prefix _ HM Hre).
    rewrite (dispatch_empty env r _ (asset_handler m))
      by apply latched_Handler.
    cbn [final w mem]. rewrite latched_Prefix, Ho, Ha.
    unfold http.Redirect. rewrite HM. reflexivity.
  - intros N3 N1 N2.
    rewrite (serve_delegated env m r full prefix path HM Hre N1 N2 N3).
    cbn [final w]. rewrite Ho, Ha. reflexivity.
Qed.

(** The request that latches shows its own prefix. *)
Lemma serve_answers_latching (env : Env) (m : Memory) (r : Request)
    (p : string) :
  once m = false -> latch_prefix r = Some p ->
  answers_with env (asset_handler m) p r (serve env m r).
Proof.
  intros Ho Hl full prefix path HM Hre.
  unfold latch_prefix in Hl. rewrite HM, Hre in Hl. cbn in Hl.
  injection Hl as ->.
  split.
  - intros ->. rewrite (serve_GET env m r full p _ HM Hre).
    rewrite (dispatch_empty env r _ (asset_handler m))
      by apply latched_Handler.
    cbn [final w mem]. rewrite latched_Prefix, Ho.
    unfold http.Redirect. rewrite HM. reflexivity.
  - intros N3 N1 N2.
    rewrite (serve_delegated env m r full p path HM Hre N1 N2 N3).
    cbn [final w]. rewrite Ho. reflexivity.
Qed.

(** After the latch, among others: the dispatcher writes no prefix any more;
    and while the others leave the prefix of its asset handler alone, every
    request shows the prefix the handler held. *)
Lemma among_latched (env : Env) (l : loc)
    (steps : list (((loc -> webdav_Handler) -> loc -> webdav_Handler) * Request)) :
  forall m,
    once m = true -> Config_Handler (config m) = Some l ->
    Prefix_writes (accesses (serve_among env m steps)) = [] /\
    (Forall (fun st => keeps_Prefix l (fst st)) steps ->
     Forall (observes l (Prefix (handlers m l)))
            (accesses (serve_among env m steps)) /\
     forall n others r o,
       nth_error steps n = Some (others, r) ->
       nth_error (serve_among env m steps) n = Some o ->
       answers_with env l (Prefix (handlers m l)) r o).
Proof.
  induction steps as [|[others r] steps IH]; intros m Ho Hh.
  - split; [reflexivity|]. intros _. split; [constructor|].
    intros n others r o Hn. destruct n; discriminate Hn.
  - cbn [serve_among]. set (m0 := with_heap m (others (handlers m))).
    assert (Ho0 : once m0 = true) by exact Ho.
    assert (Hh0 : Config_Handler (config m0) = Some l) by exact Hh.
    assert (Ha0 : asset_handler m0 = l).
    { unfold asset_handler. rewrite Hh0. reflexivity. }
    assert (Hm : mem (final (serve env m0 r)) = m0).
    { rewrite serve_mem. destruct (latch_prefix r); [|reflexivity].
      apply (latched_fixed m0 l); assumption. }
    assert (Htr : Forall (observes l (Prefix (handlers m0 l)))
                    (trace (final (serve env m0 r)))).
    { pose proof (serve_trace env m0 r) as H.
      destruct (latch_prefix r) as [p'|].
      - destruct H as (tr' & -> & Hobs).
        unfold latch_accesses in *. rewrite Ho0, Hh0, Ha0 in *. exact Hobs.
      - rewrite H. constructor. }
    rewrite Hm, accesses_cons. destruct (IH m0 Ho0 Hh0) as [Hw Hkeep].
    split.
    + rewrite Prefix_writes_app, Hw, (Prefix_writes_observes _ _ _ Htr).
      reflexivity.
    + intros Hk. pose proof (Forall_inv Hk) as Hk0.
      pose proof (Forall_inv_tail Hk) as Hks.
      cbn [fst] in Hk0.
      assert (Hp : Prefix (handlers m0 l) = Prefix (handlers m l)).
      { unfold m0. cbn [with_heap handlers]. apply Hk0. }
      destruct (Hkeep Hks) as [Hobs Hans]. rewrite Hp in *.
      split.
      * apply Forall_app. split; assumption.
      * intros n others' r' o Hn Ho'. destruct n as [|n].
        { cbn in Hn, Ho'. injection Hn as <- <-. injection Ho' as <-.
          rewrite <- Hp. apply serve_answers_latched; assumption. }
        { cbn [nth_error] in Hn, Ho'. exact (Hans n others' r' o Hn Ho'). }
Qed.

(** C1 (as the code has it): over any sequence of requests to a dispatcher
    whose latch has not run, in a process where other code may change the
    asset handlers between the requests, the dispatcher writes the [Prefix]
    field exactly once: at its first GET request whose URI the pattern
    matches, with that request's prefix, touching the field neither before
    nor after.  While, from that request on, nothing else writes the
    [Prefix] of its asset handler, that request and every later one show
    this value: each redirect goes to it followed by [index.html], each
    delegation reaches the asset handler with it, and every read finds it.
    When no request latches, the dispatcher accesses no shared memory. *)
Theorem prefix_latched_once (env : Env) (m : Memory)
    (steps : list (((loc -> webdav_Handler) -> loc -> webdav_Handler) * Request)) :
  once m = false ->
  match first_latch (map snd steps) with
  | Some p =>
      Prefix_writes (accesses (serve_among env m steps)) =
        [(asset_handler m, p)] /\
      exists tr1 tr2,
        accesses (serve_among env m steps) =
          (tr1 ++ PrefixSet (asset_handler m) p :: tr2)%list /\
        Forall (fun e => touches_Prefix e = false) tr1 /\
        Prefix_writes tr2 = [] /\
        (undisturbed_after_latch (asset_handler m) steps ->
         Forall (observes (asset_handler m) p) tr2 /\
         forall n others r o,
           nth_error steps n = Some (others, r) ->
           nth_error (serve_among env m steps) n = Some o ->
           first_latch (firstn (S n) (map snd steps)) <> None ->
           answers_with env (asset_handler m) p r o)
  | None => accesses (serve_among env m steps) = []
  end.
Proof.
  revert m. induction steps as [|[others r] steps IH]; intros m Ho;
    [reflexivity|].
  cbn [map snd first_latch serve_among].
  set (m0 := with_heap m (others (handlers m))).
  assert (Ho0 : once m0 = false) by exact Ho.
  assert (Ha0 : asset_handler m0 = asset_handler m) by reflexivity.
  rewrite accesses_cons.
  pose proof (serve_trace env m0 r) as Htr.
  pose proof (serve_mem env m0 r) as Hm.
  destruct (latch_prefix r) as [p|] eqn:Hl.
  - destruct Htr as (tr' & Htr & Hobs'). rewrite Ho0, Ha0 in Hobs'.
    rewrite Hm, Htr.
    destruct (among_latched env (asset_handler m) steps (latched m0 p))
      as [Hw Hkeep].
    { apply latched_once. }
    { rewrite latched_Handler, Ha0. reflexivity. }
    assert (Hp1 : Prefix (handlers (latched m0 p) (asset_handler m)) = p).
    { rewrite <- Ha0, latched_Prefix, Ho0. reflexivity. }
    rewrite Hp1 in Hkeep.
    set (pre := match Config_Handler (config m0) with
                | Some _ => []
                | None => [ConfigHandlerSet swaggerFiles_Handler]
                end).
    assert (Hpre : Forall (fun e => touches_Prefix e = false) pre).
    { unfold pre. destruct (Config_Handler (config m0)); repeat constructor. }
    assert (Hacc : ((latch_accesses m0 p ++ tr') ++
                    accesses (serve_among env (latched m0 p) steps) =
                    pre ++ PrefixSet (asset_handler m) p ::
                      (tr' ++ accesses (serve_among env (latched m0 p) steps)))%list).
    { unfold latch_accesses. rewrite Ho0, Ha0. fold pre.
      rewrite <- !app_assoc. reflexivity. }
    assert (Hw2 : Prefix_writes
                    (tr' ++ accesses (serve_among env (latched m0 p) steps)) = []).
    { rewrite Prefix_writes_app, Hw, (Prefix_writes_observes _ _ _ Hobs').
      reflexivity. }
    rewrite Hacc. split.
    + rewrite Prefix_writes_app. cbn [Prefix_writes].
      rewrite (Prefix_writes_untouched _ Hpre), Hw2. reflexivity.
    + exists pre, (tr' ++ accesses (serve_among env (latched m0 p) steps))%list.
      split; [reflexivity|]. split; [exact Hpre|]. split; [exact Hw2|].
      intros Hk.
      assert (Hks : Forall (fun st => keeps_Prefix (asset_handler m) (fst st))
                      steps).
      { apply Forall_forall. intros [others' r'] Hin.
        apply list_elem_of_In, In_nth_error in Hin as [k Hk'].
        apply (Hk (S k) others' r' Hk').
        cbn [firstn map snd first_latch]. rewrite Hl. discriminate. }
      destruct (Hkeep Hks) as [Hobs Hans]. split.
      * apply Forall_app. split; assumption.
      * intros n others' r' o Hn Ho' _. destruct n as [|n].
        { cbn in Hn, Ho'. injection Hn as <- <-. injection Ho' as <-.
          rewrite <- Ha0. apply serve_answers_latching; assumption. }
        { cbn [nth_error] in Hn, Ho'. exact (Hans n others' r' o Hn Ho'). }
  - rewrite Htr, Hm. cbn [app]. specialize (IH m0 Ho0). rewrite Ha0 in IH.
    destruct (first_latch (map snd steps)) as [p|]; [|exact IH].
    destruct IH as (Hw & tr1 & tr2 & Hacc & H1 & H2 & Hkeep).
    split; [exact Hw|]. exists tr1, tr2.
    split; [exact Hacc|]. split; [exact H1|]. split; [exact H2|].
    intros Hk.
    assert (Hks : undisturbed_after_latch (asset_handler m) steps).
    { intros k others' r' Hk' Hfirst.
      apply (Hk (S k) others' r' Hk').
      cbn [firstn map snd first_latch]. rewrite Hl. exact Hfirst. }
    destruct (Hkeep Hks) as [Hobs Hans]. split; [exact Hobs|].
    intros n others' r' o Hn Ho' Hfirst. destruct n as [|n].
    + exfalso. apply Hfirst. cbn [firstn map snd first_latch].
      cbn in Hn. injection Hn as <- <-. rewrite Hl. reflexivity.
    + cbn [nth_error] in Hn, Ho'. apply (Hans n others' r' o Hn Ho').
      intros E. apply Hfirst. cbn [firstn map snd first_latch].
      rewrite Hl. exact E.
Qed.

Lemma prefix_latched_once_witness :
  once (Handler [] sample_heap) = false /\
  Prefix_writes
    (accesses
       (serve_among sample_env (Handler [] sample_heap)
          [(fun heap => heap, POST "/x/"); (fun heap => heap, GET "/?q");
           (fun heap => heap, GET "/a/index.html");
           (fun heap => heap, GET "/b/")])) =
    [(swaggerFiles_Handler, "/a/")] /\
  forall o,
    nth_error
      (serve_among sample_env (Handler [] sample_heap)
         [(fun heap => heap, POST "/x/"); (fun heap => heap, GET "/?q");
          (fun heap => heap, GET "/a/index.html");
          (fun heap => heap, GET "/b/")]) 3 = Some o ->
    Header (w (final o)) !! "Location" = Some "/a/index.html".
Proof.
  split; [reflexivity|].
  pose proof (prefix_latched_once sample_env (Handler [] sample_heap)
                [(fun heap => heap, POST "/x/"); (fun heap => heap, GET "/?q");
                 (fun heap => heap, GET "/a/index.html");
                 (fun heap => heap, GET "/b/")] eq_refl) as H.
  destruct H as (Hw & tr1 & tr2 & _ & _ & _ & Hkeep).
  split; [exact Hw|].
  intros o Ho.
  assert (Hk : undisturbed_after_latch
                 (asset_handler (Handler [] sample_heap))
                 [(fun heap => heap, POST "/x/"); (fun heap => heap, GET "/?q");
                  (fun heap => heap, GET "/a/index.html");
                  (fun heap => heap, GET "/b/")]).
  { intros k others r Hn _.
    destruct k as [|[|[|[|k]]]]; cbn in Hn;
      [| | | |destruct k; discriminate Hn];
      injection Hn as <- _; intros heap; reflexivity. }
  destruct (Hkeep Hk) as [_ Hans].
  assert (Hfirst : first_latch
                     (firstn 4 (map snd
                        [(fun heap : loc -> webdav_Handler => heap, POST "/x/");
                         (fun heap => heap, GET "/?q");
                         (fun heap => heap, GET "/a/index.html");
                         (fun heap => heap, GET "/b/")])) <> None).
  { discriminate. }
  destruct (Hans 3 (fun heap => heap) (GET "/b/") o eq_refl Ho Hfirst
              "/b/" "/b/" "" eq_refl eq_refl) as [Hloc _].
  exact (Hloc eq_refl).
Defined.

(** C1 as stated fails: dispatcher [Handler()] latches [/a/]; the
    package-level [WrapHandler], which uses the same asset handler, then
    serves a request under [/b/] and writes the cell a second time; the
    next request of the first dispatcher is redirected to [/b/index.html],
    not to the prefix latched from its first request. *)
Lemma second_dispatcher_overwrites_prefix :
  first_latch [GET "/a/index.html"; GET "/a/"] = Some "/a/" /\
  Prefix_writes
    (trace (final
       (serve sample_env
          (with_heap (WrapHandler sample_heap)
             (handlers (mem (final (serve sample_env (Handler [] sample_heap)
                                      (GET "/a/index.html"))))))
          (GET "/b/index.html")))) =
    [(swaggerFiles_Handler, "/b/")] /\
  exists o,
    nth_error
      (serve_among sample_env (Handler [] sample_heap)
         [(fun heap => heap, GET "/a/index.html");
          (other_dispatcher_serves sample_env (WrapHandler sample_heap)
             (GET "/b/index.html"), GET "/a/")]) 1 = Some o /\
    Header (w (final o)) !! "Location" = Some "/b/index.html" /\
    Header (w (final o)) !! "Location" <>
      Some (redirect_target sample_env (GET "/a/") ("/a/" +:+ "index.html")).
Proof.
  split; [reflexivity|]. split; [reflexivity|].
  eexists. split; [reflexivity|]. split; [reflexivity|].
  vm_compute. discriminate.
Qed.

(** Alone in the process, the dispatcher runs as [serve_all] has it. *)
Lemma serve_among_alone (env : Env) (rs : list Request) :
  forall m,
    serve_among env m (map (fun r => (fun heap => heap, r)) rs) =
    serve_all env m rs.
Proof.
  induction rs as [|r rs IH]; intros m; [reflexivity|].
  cbn [map serve_among serve_all].
  assert (E : with_heap m (handlers m) = m) by (destruct m; reflexivity).
  rewrite E, IH. reflexivity.
Qed.
